(** * BankGuard AI: the behavioural-biometrics pipeline and its response engine

  A shallow embedding of these parts of the sources:

  - [Server]: [server/src/services/fraudDetection.ts], the class
    [FraudDetectionService] (TypeScript, numbers are IEEE binary64), with
    [generateEmbeddings] and [queryFraudPatterns] of [ragSystem.ts];
  - [Routes]: [getRiskLevel] of the fraud-detection routes;
  - [Android]: [MainActivity.kt], the on-device [determineSecurityResponse]
    (Kotlin [Float], IEEE binary32);
  - [Collector]: [BehavioralBiometricsCollector] (Kotlin), the four signal
    buffers, their ingestion callbacks, feature extraction and the
    periodic tick;
  - [Activity]: [MainActivity.kt], the state of the screen, the switch of
    the collection and the callback handed to the collector.

  Risk scores are floating-point numbers and are compared, never computed
  with, by the response engines: the server's scores are the kernel's
  binary64 floats, the client's are [spec_float] values at binary32
  precision, and every comparison is the IEEE one ([NaN] compares false). *)

From Stdlib Require Import ZArith List String Bool Lia PeanoNat DecimalString.
From Stdlib Require Import Floats.
From Stdlib Require Uint63.
Import ListNotations.

Set Warnings "-inexact-float".

Local Open Scope string_scope.
Local Open Scope Z_scope.

(** ** IEEE comparisons against positive finite thresholds *)

Module IEEE.

(** [x >= y] is [y <= x] in IEEE arithmetic, unordered operands included. *)
Definition SFgeb (x y : spec_float) : bool := SFleb y x.

(** Thresholds are positive finite numbers [m * 2^e]. *)
Definition thr (m : positive) (e : Z) : spec_float := S754_finite false m e.

(** [x < m * 2^e] and [x >= m * 2^e], read off the representation of [x]. *)
Definition below (x : spec_float) (m : positive) (e : Z) : Prop :=
  match x with
  | S754_zero _ => True
  | S754_infinity s => s = true
  | S754_nan => False
  | S754_finite s m' e' => s = true \/ e' < e \/ (e' = e /\ Z.pos m' < Z.pos m)
  end.

Definition at_least (x : spec_float) (m : positive) (e : Z) : Prop :=
  match x with
  | S754_finite false m' e' => e < e' \/ (e = e' /\ Z.pos m <= Z.pos m')
  | S754_infinity false => True
  | _ => False
  end.

(** [x > m * 2^e] and [x <= m * 2^e], likewise. *)
Definition above (x : spec_float) (m : positive) (e : Z) : Prop :=
  match x with
  | S754_finite false m' e' => e < e' \/ (e = e' /\ Z.pos m < Z.pos m')
  | S754_infinity false => True
  | _ => False
  end.

Definition at_most (x : spec_float) (m : positive) (e : Z) : Prop :=
  match x with
  | S754_zero _ => True
  | S754_infinity s => s = true
  | S754_nan => False
  | S754_finite s m' e' => s = true \/ e' < e \/ (e' = e /\ Z.pos m' <= Z.pos m)
  end.

(** [x = m * 2^e], likewise. *)
Definition exactly (x : spec_float) (m : positive) (e : Z) : Prop :=
  match x with
  | S754_finite false m' e' => e' = e /\ Z.pos m' = Z.pos m
  | _ => False
  end.

End IEEE.

(** ** Calls that return or throw *)

Inductive Outcome (A : Type) : Type :=
| Returned (a : A)
| Threw (err : string).

Arguments Returned {A} a.
Arguments Threw {A} err.

Definition returned {A} (o : Outcome A) : bool :=
  match o with Returned _ => true | Threw _ => false end.

(** ** The five responses

    The response engine's outcomes by name.  Both implementations carry the
    outcome in a record; its severity tells the tier ([kind] below, per
    implementation), its type the authentication method. *)

Inductive ResponseKind :=
| NoResponse
| SilentChallenge
| StepUpChallenge
| SessionTerminate
| AccountLock.

Definition terminal (k : ResponseKind) : bool :=
  match k with
  | SessionTerminate | AccountLock => true
  | _ => false
  end.

(** ** The server: [FraudDetectionService] *)

Module Server.

Local Open Scope float_scope.

(** JS [a >= b] and [a > b] on numbers. *)
Definition geb (a b : float) : bool := b <=? a.
Definition gtb (a b : float) : bool := b <? a.

Record BehavioralMetrics := {
  userId : string;
  sessionId : string;
  timestamp : float;
  typingRhythm : list float;
  touchDynamics : list float;
  deviceOrientation : list float;
  navigationPattern : list float;
  riskScore : float;
  anomalyFlags : list string;
  confidenceLevel : float;
  deviceFingerprint : string;
  locationHash : option string;
  timeOfDay : float;
  dayOfWeek : float
}.

Inductive ResponseType :=
  silent_faceid | otp_challenge | session_termination | account_lock.

Inductive Severity := low | medium | high | critical.

(** [expiresAt] is a [Date]; it is kept as its time value, milliseconds
    since the epoch. *)
Record SecurityResponse := {
  type : ResponseType;
  severity : Severity;
  message : string;
  requiresUserAction : bool;
  expiresAt : option Z
}.

(** [RISK_THRESHOLDS] *)
Definition LOW : float := 0.3.
Definition MEDIUM : float := 0.6.
Definition HIGH : float := 0.8.
Definition CRITICAL : float := 0.95.

(** [Array.prototype.includes] on an array of strings. *)
Definition includes (flags : list string) (tag : string) : bool :=
  existsb (String.eqb tag) flags.

Definition selectAuthenticationMethod (anomalyFlags : list string) : ResponseType :=
  if includes anomalyFlags "device_anomaly" || includes anomalyFlags "location_anomaly"
  then silent_faceid
  else if includes anomalyFlags "typing_anomaly" || includes anomalyFlags "navigation_anomaly"
  then otp_challenge
  else silent_faceid.

(** [now] is the value [Date.now()] returns inside the call. *)
Definition determineSecurityResponse (now : Z) (metrics : BehavioralMetrics)
  : option SecurityResponse :=
  let riskScore := metrics.(riskScore) in
  let anomalyFlags := metrics.(anomalyFlags) in
  if riskScore <? LOW then None
  else if geb riskScore CRITICAL then
    Some {| type := account_lock;
            severity := critical;
            message := "Suspicious activity detected. Account temporarily locked for security.";
            requiresUserAction := true;
            expiresAt := None |}
  else if geb riskScore HIGH then
    Some {| type := session_termination;
            severity := high;
            message := "Session terminated due to unusual activity patterns.";
            requiresUserAction := true;
            expiresAt := None |}
  else if geb riskScore MEDIUM then
    let authType := selectAuthenticationMethod anomalyFlags in
    Some {| type := authType;
            severity := medium;
            message := "Additional verification required for security.";
            requiresUserAction := true;
            expiresAt := Some (now + 5 * 60 * 1000)%Z |}
  else
    Some {| type := silent_faceid;
            severity := low;
            message := "Background security check in progress.";
            requiresUserAction := false;
            expiresAt := None |}.

(** *** The service's effects

    One call of [processBehavioralMetrics] reads the clock, writes to the
    log, inserts rows through the database client, asks the RAG service for
    similar patterns and pushes an alert to the dashboard.  The effects are
    kept in [Service]; what the outside world answers during one call is the
    call's [Env]. *)

Inductive Level := info | warn | error.

Record LogEntry := { level : Level; text : string }.

(** [FraudPattern] of [ragSystem.ts], without its [metadata]. *)
Record FraudPattern := {
  pattern_id : string;
  description : string;
  pattern_riskScore : float;
  anomalyTypes : list string;
  similarity : float
}.

Record AnalyticsRow := {
  session_id : string;
  user_hash : string;
  row_timestamp : string;
  risk_score : float;
  anomaly_flags : list string;
  confidence_level : float;
  device_fingerprint : string;
  time_of_day : float;
  day_of_week : float
}.

Record AnalysisRow := {
  analysis_session_id : string;
  similar_patterns : list FraudPattern;
  analysis_timestamp : Z;
  pattern_count : nat
}.

(** The alert's [id] is the text alert_ followed by the value of
    [Date.now()], its [timestamp] a [new Date()] printed as a date: two
    readings of the clock, each kept as its value, as it is for the analysis
    row. *)
Record Alert := {
  alert_id : Z;
  alert_sessionId : string;
  userHash : string;
  alert_riskScore : float;
  alert_severity : Severity;
  responseType : ResponseType;
  alert_timestamp : Z;
  alert_anomalyFlags : list string
}.

Record Service := {
  logs : list LogEntry;
  behavioral_analytics : list AnalyticsRow;
  ragQueries : list string;
  fraud_analysis : list AnalysisRow;
  alerts : list Alert;
  emitted : list Alert
}.

Definition emptyService : Service :=
  {| logs := []; behavioral_analytics := []; ragQueries := [];
     fraud_analysis := []; alerts := []; emitted := [] |}.

(** What the collaborators answer during one call.  [now] is the value
    [Date.now()] returns inside [determineSecurityResponse]; the clock is
    read again for the analysis row, and twice for the alert (its id, then
    its timestamp).  A database insert resolves to its [error] field
    ([None] when the row was written) or rejects; the embedding service
    answers the request for the query's embedding or fails; the vector store
    is absent ([None], the collection was never initialised) or answers a
    query with patterns or an exception.  The digest and the printing of
    numbers are the platform's.

    A string is the sequence of its UTF-16 code units, one character of
    [string] for each (code units below 256: ASCII and Latin-1 text), so
    that [substring] counts as [String.prototype.substring] does. *)
Record Env := {
  now : Z;
  analysisClock : Z;
  alertClock : Z;
  alertTimestampClock : Z;
  sha256_hex : string -> string;
  toISOString : float -> option string;
  toFixed2 : float -> string;
  numberToString : float -> string;
  metricsInsert : Outcome (option string);
  embeddings : Outcome unit;
  collection : option (string -> Outcome (list FraudPattern));
  analysisInsert : Outcome (option string);
  createAlert : Outcome unit
}.

(** State and exceptions. *)
Definition M (A : Type) : Type := Service -> Outcome A * Service.

Definition ret {A} (a : A) : M A := fun s => (Returned a, s).

Definition throw {A} (err : string) : M A := fun s => (Threw err, s).

Definition bind {A B} (c : M A) (k : A -> M B) : M B :=
  fun s => match c s with
           | (Returned a, s') => k a s'
           | (Threw err, s') => (Threw err, s')
           end.

Definition try_catch {A} (c : M A) (handler : string -> M A) : M A :=
  fun s => match c s with
           | (Returned a, s') => (Returned a, s')
           | (Threw err, s') => handler err s'
           end.

Definition lift {A} (o : Outcome A) : M A := fun s => (o, s).

Notation "x <- c ;; k" := (bind c (fun x => k))
  (at level 61, c at next level, right associativity).
Notation "c ;;; k" := (bind c (fun _ => k))
  (at level 61, right associativity).

Definition log (l : Level) (t : string) : M unit :=
  fun s => (Returned tt,
            {| logs := (logs s ++ [{| level := l; text := t |}])%list;
               behavioral_analytics := behavioral_analytics s;
               ragQueries := ragQueries s;
               fraud_analysis := fraud_analysis s;
               alerts := alerts s;
               emitted := emitted s |}).

Definition insertAnalytics (row : AnalyticsRow) : M unit :=
  fun s => (Returned tt,
            {| logs := logs s;
               behavioral_analytics := (behavioral_analytics s ++ [row])%list;
               ragQueries := ragQueries s;
               fraud_analysis := fraud_analysis s;
               alerts := alerts s;
               emitted := emitted s |}).

Definition recordRagQuery (q : string) : M unit :=
  fun s => (Returned tt,
            {| logs := logs s;
               behavioral_analytics := behavioral_analytics s;
               ragQueries := (ragQueries s ++ [q])%list;
               fraud_analysis := fraud_analysis s;
               alerts := alerts s;
               emitted := emitted s |}).

Definition insertAnalysis (row : AnalysisRow) : M unit :=
  fun s => (Returned tt,
            {| logs := logs s;
               behavioral_analytics := behavioral_analytics s;
               ragQueries := ragQueries s;
               fraud_analysis := (fraud_analysis s ++ [row])%list;
               alerts := alerts s;
               emitted := emitted s |}).

Definition storeAlert (a : Alert) : M unit :=
  fun s => (Returned tt,
            {| logs := logs s;
               behavioral_analytics := behavioral_analytics s;
               ragQueries := ragQueries s;
               fraud_analysis := fraud_analysis s;
               alerts := (alerts s ++ [a])%list;
               emitted := emitted s |}).

Definition emit (a : Alert) : M unit :=
  fun s => (Returned tt,
            {| logs := logs s;
               behavioral_analytics := behavioral_analytics s;
               ragQueries := ragQueries s;
               fraud_analysis := fraud_analysis s;
               alerts := alerts s;
               emitted := (emitted s ++ [a])%list |}).

(** JS truthiness of a number: false for [0], [-0] and [NaN]. *)
Definition truthy (x : float) : bool := negb (x =? 0) && (x =? x).

Definition nonEmpty (s : string) : bool :=
  match s with EmptyString => false | _ => true end.

Definition validateMetrics (metrics : BehavioralMetrics) : bool :=
  if negb (nonEmpty metrics.(userId)) || negb (nonEmpty metrics.(sessionId))
     || negb (truthy metrics.(timestamp))
  then false
  else if (metrics.(riskScore) <? 0) || gtb metrics.(riskScore) 1 then false
  else if (metrics.(confidenceLevel) <? 0) || gtb metrics.(confidenceLevel) 1 then false
  else true.

Definition hashUserId (env : Env) (userId : string) : string :=
  substring 0 16 (env.(sha256_hex) userId).

Definition storeAnonymizedMetrics (env : Env) (metrics : BehavioralMetrics) : M unit :=
  try_catch
    (match env.(toISOString) metrics.(timestamp) with
     | None => throw "RangeError: Invalid time value"
     | Some iso =>
         let anonymizedData :=
           {| session_id := metrics.(sessionId);
              user_hash := hashUserId env metrics.(userId);
              row_timestamp := iso;
              risk_score := metrics.(riskScore);
              anomaly_flags := metrics.(anomalyFlags);
              confidence_level := metrics.(confidenceLevel);
              device_fingerprint := metrics.(deviceFingerprint);
              time_of_day := metrics.(timeOfDay);
              day_of_week := metrics.(dayOfWeek) |} in
         r <- lift env.(metricsInsert) ;;
         match r with
         | Some err => throw err
         | None =>
             insertAnalytics anonymizedData ;;;
             log info ("Stored anonymized metrics for session " ++ metrics.(sessionId))
         end
     end)
    (fun err => log error "Error storing anonymized metrics:" ;;; throw err).

Definition join (sep : string) (l : list string) : string := String.concat sep l.

(** A length, printed in decimal. *)
Definition showLength {A} (l : list A) : string :=
  NilZero.string_of_uint (Nat.to_uint (List.length l)).

Definition buildRAGQuery (env : Env) (metrics : BehavioralMetrics) : string :=
  let anomalies := join ", " metrics.(anomalyFlags) in
  let timeContext :=
    env.(numberToString) metrics.(timeOfDay) ++ ":00 on day "
    ++ env.(numberToString) metrics.(dayOfWeek) in
  "Fraud pattern with risk score " ++ env.(toFixed2) metrics.(riskScore) ++ ", "
  ++ "anomalies: " ++ anomalies ++ ", detected at " ++ timeContext ++ ". "
  ++ "Device fingerprint category: " ++ substring 0 8 metrics.(deviceFingerprint).

(** [ragService.generateEmbeddings]: when the embedding service fails it
    logs the failure and answers with made-up embeddings, so it always
    returns.  The embeddings themselves go to the vector store, whose answer
    is the environment's. *)
Definition generateEmbeddings (env : Env) : M unit :=
  try_catch (lift env.(embeddings))
            (fun _ => log error "Error generating embeddings:").

(** [ragService.queryFraudPatterns]: it catches what the vector store
    throws, logs it and answers with no pattern. *)
Definition queryFraudPatterns (env : Env) (query : string) : M (list FraudPattern) :=
  recordRagQuery query ;;;
  try_catch
    (match env.(collection) with
     | None =>
         log warn "RAG collection not initialized, returning empty results" ;;;
         ret []
     | Some search =>
         generateEmbeddings env ;;;
         patterns <- lift (search query) ;;
         log info ("Found " ++ showLength patterns
                   ++ " similar fraud patterns for query") ;;;
         ret patterns
     end)
    (fun _ => log error "Error querying fraud patterns:" ;;; ret []).

(** The entry [queryFraudPatterns] logs when the vector store fails. *)
Definition queryError : LogEntry :=
  {| level := error; text := "Error querying fraud patterns:" |}.

Definition storeFraudAnalysis (env : Env) (sessionId : string)
  (patterns : list FraudPattern) : M unit :=
  try_catch
    (let analysisData :=
       {| analysis_session_id := sessionId;
          similar_patterns := patterns;
          analysis_timestamp := env.(analysisClock);
          pattern_count := List.length patterns |} in
     r <- lift env.(analysisInsert) ;;
     match r with
     | Some err => throw err
     | None => insertAnalysis analysisData
     end)
    (fun _ => log error "Error storing fraud analysis:").

Definition analyzeWithRAG (env : Env) (metrics : BehavioralMetrics) : M unit :=
  try_catch
    (let query := buildRAGQuery env metrics in
     similarPatterns <- queryFraudPatterns env query ;;
     if (0 <? List.length similarPatterns)%nat then
       log info ("Found " ++ showLength similarPatterns
                 ++ " similar fraud patterns for session " ++ metrics.(sessionId)) ;;;
       storeFraudAnalysis env metrics.(sessionId) similarPatterns
     else ret tt)
    (fun _ => log error "Error analyzing with RAG system:").

Definition alertFor (env : Env) (metrics : BehavioralMetrics)
  (response : SecurityResponse) : Alert :=
  {| alert_id := env.(alertClock);
     alert_sessionId := metrics.(sessionId);
     userHash := hashUserId env metrics.(userId);
     alert_riskScore := metrics.(riskScore);
     alert_severity := response.(severity);
     responseType := response.(type);
     alert_timestamp := env.(alertTimestampClock);
     alert_anomalyFlags := metrics.(anomalyFlags) |}.

Definition sendRealTimeAlert (env : Env) (metrics : BehavioralMetrics)
  (response : SecurityResponse) : M unit :=
  try_catch
    (let alert := alertFor env metrics response in
     lift env.(createAlert) ;;;
     storeAlert alert ;;;
     emit alert ;;;
     log info ("Sent real-time alert for session " ++ metrics.(sessionId)))
    (fun _ => log error "Error sending real-time alert:").

Definition processBehavioralMetrics (env : Env) (metrics : BehavioralMetrics)
  : M (option SecurityResponse) :=
  try_catch
    (log info ("Processing behavioral metrics for session " ++ metrics.(sessionId)) ;;;
     (if negb (validateMetrics metrics)
      then throw "Invalid behavioral metrics received"
      else ret tt) ;;;
     storeAnonymizedMetrics env metrics ;;;
     let response := determineSecurityResponse env.(now) metrics in
     (if gtb metrics.(riskScore) MEDIUM
      then analyzeWithRAG env metrics
      else ret tt) ;;;
     match response with
     | Some r => sendRealTimeAlert env metrics r
     | None => ret tt
     end ;;;
     ret response)
    (fun err => log error "Error processing behavioral metrics:" ;;; throw err).

(** The ticks of one session, processed in the order they arrive; the
    service carries its effects from one tick to the next. *)
Fixpoint runSession (ticks : list (Env * BehavioralMetrics)) (s : Service)
  : list (Outcome (option SecurityResponse)) * Service :=
  match ticks with
  | [] => ([], s)
  | (env, metrics) :: rest =>
      let '(r, s') := processBehavioralMetrics env metrics s in
      let '(rs, s'') := runSession rest s' in
      (r :: rs, s'')
  end.

Definition kind (r : option SecurityResponse) : ResponseKind :=
  match r with
  | None => NoResponse
  | Some x =>
      match x.(severity) with
      | low => SilentChallenge
      | medium => StepUpChallenge
      | high => SessionTerminate
      | critical => AccountLock
      end
  end.

(** The response [out] has this type, severity, user-action flag and expiry
    (whatever its message). *)
Definition responds (out : option SecurityResponse) (t : ResponseType)
  (sv : Severity) (action : bool) (expiry : option Z) : Prop :=
  exists msg,
    out = Some {| type := t; severity := sv; message := msg;
                  requiresUserAction := action; expiresAt := expiry |}.

(** The decision proper: everything of a response but its expiry. *)
Definition decision (r : option SecurityResponse)
  : option (ResponseType * Severity * string * bool) :=
  option_map (fun x => (x.(type), x.(severity), x.(message), x.(requiresUserAction))) r.

(** *** What one call leaves behind

    The rows and alerts a call of [processBehavioralMetrics] adds, named
    for the statements about them. *)

(** The row [storeAnonymizedMetrics] inserts, [iso] being the timestamp
    printed as a date. *)
Definition anonymizedRow (env : Env) (metrics : BehavioralMetrics) (iso : string)
  : AnalyticsRow :=
  {| session_id := metrics.(sessionId);
     user_hash := hashUserId env metrics.(userId);
     row_timestamp := iso;
     risk_score := metrics.(riskScore);
     anomaly_flags := metrics.(anomalyFlags);
     confidence_level := metrics.(confidenceLevel);
     device_fingerprint := metrics.(deviceFingerprint);
     time_of_day := metrics.(timeOfDay);
     day_of_week := metrics.(dayOfWeek) |}.

(** The analysis row [analyzeWithRAG] leaves: one when the vector store
    answered with at least one pattern and the database wrote the row, none
    otherwise. *)
Definition analysisRows (env : Env) (metrics : BehavioralMetrics) : list AnalysisRow :=
  match env.(collection) with
  | Some search =>
      match search (buildRAGQuery env metrics) with
      | Returned (p :: ps) =>
          match env.(analysisInsert) with
          | Returned None =>
              [ {| analysis_session_id := metrics.(sessionId);
                   similar_patterns := p :: ps;
                   analysis_timestamp := env.(analysisClock);
                   pattern_count := List.length (p :: ps) |} ]
          | _ => []
          end
      | _ => []
      end
  | None => []
  end.

(** The alert [sendRealTimeAlert] stores and emits: one when there is a
    response and the alert service accepted it. *)
Definition dispatched (env : Env) (metrics : BehavioralMetrics)
  (response : option SecurityResponse) : list Alert :=
  match response, env.(createAlert) with
  | Some r, Returned _ => [alertFor env metrics r]
  | _, _ => []
  end.

(** The entry the handler of [processBehavioralMetrics] logs. *)
Definition processingError : LogEntry :=
  {| level := error; text := "Error processing behavioral metrics:" |}.

(** *** Statistics for the dashboard: [aggregateStatistics]

    Counts are array lengths; as numbers they are exact, and the two
    ratios divide them as floats. *)

Definition ofNat (n : nat) : float := PrimFloat.of_uint63 (Uint63.of_Z (Z.of_nat n)).

(** What the accumulator [{}] of the flag tally holds under a key: a count,
    or the text that adding [1] to a member inherited from
    [Object.prototype] produces (and that every later addition extends). *)
Inductive Tally :=
| Count (n : nat)
| Text.

(** The members every object literal inherits. *)
Definition inheritedNames : list string :=
  [ "constructor"; "toString"; "toLocaleString"; "valueOf"; "hasOwnProperty";
    "isPrototypeOf"; "propertyIsEnumerable"; "__proto__";
    "__defineGetter__"; "__defineSetter__"; "__lookupGetter__"; "__lookupSetter__" ].

Definition inherited (flag : string) : bool :=
  existsb (String.eqb flag) inheritedNames.

(** [(acc[flag] || 0) + 1] on a value the accumulator holds. *)
Definition plusOne (v : Tally) : Tally :=
  match v with
  | Count n => Count (n + 1)
  | Text => Text
  end.

(** [acc[flag] = (acc[flag] || 0) + 1].  A key the accumulator does not hold
    starts at [1], unless the name is inherited: then the sum is a text,
    and under [__proto__] the assignment of a text stores nothing.  The
    accumulator is read through [tallyOf]; the order of its keys is not
    kept. *)
Fixpoint tallyFlag (flag : string) (acc : list (string * Tally)) : list (string * Tally) :=
  match acc with
  | [] =>
      if inherited flag
      then if String.eqb flag "__proto__" then [] else [(flag, Text)]
      else [(flag, Count 1)]
  | (key, v) :: rest =>
      if String.eqb flag key then (key, plusOne v) :: rest
      else (key, v) :: tallyFlag flag rest
  end.

Fixpoint tallyOf (acc : list (string * Tally)) (flag : string) : option Tally :=
  match acc with
  | [] => None
  | (key, v) :: rest => if String.eqb flag key then Some v else tallyOf rest flag
  end.

Record Statistics := {
  totalSessions : nat;
  highRiskSessions : nat;
  mediumRiskSessions : nat;
  lowRiskSessions : Z;
  fraudRate : float;
  anomalyTypeCounts : list (string * Tally);
  averageRiskScore : float
}.

Definition aggregateStatistics (data : list AnalyticsRow) : Statistics :=
  let totalSessions := List.length data in
  let highRiskSessions :=
    List.length (filter (fun d => gtb d.(risk_score) HIGH) data) in
  let mediumRiskSessions :=
    List.length (filter (fun d => gtb d.(risk_score) MEDIUM && (d.(risk_score) <=? HIGH))
                        data) in
  let anomalyTypes :=
    fold_left (fun acc d => fold_left (fun acc flag => tallyFlag flag acc)
                                      d.(anomaly_flags) acc)
              data [] in
  {| totalSessions := totalSessions;
     highRiskSessions := highRiskSessions;
     mediumRiskSessions := mediumRiskSessions;
     lowRiskSessions :=
       (Z.of_nat totalSessions - Z.of_nat highRiskSessions
        - Z.of_nat mediumRiskSessions)%Z;
     fraudRate :=
       if (0 <? totalSessions)%nat
       then (ofNat highRiskSessions / ofNat totalSessions) * 100
       else 0;
     anomalyTypeCounts := anomalyTypes;
     averageRiskScore :=
       if (0 <? List.length data)%nat
       then fold_left (fun sum d => sum + d.(risk_score)) data 0
            / ofNat (List.length data)
       else 0 |}.

(** What the accumulator of the flag tally holds under [flag] after [n]
    more additions under that key, [held] being what it held before. *)
Definition after (n : nat) (flag : string) (held : option Tally) : option Tally :=
  match n, held with
  | O, _ => held
  | S _, Some (Count k) => Some (Count (k + n))
  | S _, Some Text => Some Text
  | S _, None =>
      if inherited flag
      then if String.eqb flag "__proto__" then None else Some Text
      else Some (Count n)
  end.

End Server.

(** ** The routes: [getRiskLevel] *)

Module Routes.

Local Open Scope float_scope.

(** The risk level the [/analyze] route reports beside the service's
    response. *)
Definition getRiskLevel (riskScore : float) : string :=
  if Server.geb riskScore 0.95 then "critical"
  else if Server.geb riskScore 0.8 then "high"
  else if Server.geb riskScore 0.6 then "medium"
  else if Server.geb riskScore 0.3 then "low"
  else "minimal".

(** The text of a severity, as the response carries it. *)
Definition severityText (sv : Server.Severity) : string :=
  match sv with
  | Server.low => "low"
  | Server.medium => "medium"
  | Server.high => "high"
  | Server.critical => "critical"
  end.

End Routes.

(** ** The Android client: [MainActivity.determineSecurityResponse] *)

Module Android.

(** Kotlin's [Float] is IEEE binary32: 24 bits of precision, exponents
    below 128. *)
Definition prec : Z := 24.
Definition emax : Z := 128.

(** The literal written [n/d] in decimal with suffix [f]: the binary32
    value nearest to the quotient (both [n] and [d] are small integers, so
    the division rounds once). *)
Definition lit (n d : positive) : spec_float :=
  SFdiv prec emax (S754_finite false n 0) (S754_finite false d 0).

Definition geb (a b : spec_float) : bool := IEEE.SFgeb a b.

(** [SecurityResponse.Type] and [SecurityResponse.Severity]; the data class
    is declared outside the sources at hand and is given the four fields the
    constructor calls name. *)
Inductive ResponseType :=
  ACCOUNT_LOCK | SESSION_TERMINATION | OTP_CHALLENGE | SILENT_FACEID.

Inductive Severity := CRITICAL | HIGH | MEDIUM | LOW.

Record SecurityResponse := {
  type : ResponseType;
  severity : Severity;
  message : string;
  requiresUserAction : bool
}.

(** The second parameter, the tick's [BehavioralMetrics], is never read. *)
Definition determineSecurityResponse {Metrics : Type}
  (riskScore : spec_float) (metrics : Metrics) : option SecurityResponse :=
  if geb riskScore (lit 95 100) then
    Some {| type := ACCOUNT_LOCK;
            severity := CRITICAL;
            message := "Critical security threat detected. Account locked.";
            requiresUserAction := true |}
  else if geb riskScore (lit 8 10) then
    Some {| type := SESSION_TERMINATION;
            severity := HIGH;
            message := "High risk activity detected. Session terminated.";
            requiresUserAction := true |}
  else if geb riskScore (lit 6 10) then
    Some {| type := OTP_CHALLENGE;
            severity := MEDIUM;
            message := "Additional verification required.";
            requiresUserAction := true |}
  else if geb riskScore (lit 3 10) then
    Some {| type := SILENT_FACEID;
            severity := LOW;
            message := "Background security check.";
            requiresUserAction := false |}
  else None.

Definition kind (r : option SecurityResponse) : ResponseKind :=
  match r with
  | None => NoResponse
  | Some x =>
      match x.(severity) with
      | LOW => SilentChallenge
      | MEDIUM => StepUpChallenge
      | HIGH => SessionTerminate
      | CRITICAL => AccountLock
      end
  end.

Definition responds (out : option SecurityResponse) (t : ResponseType)
  (sv : Severity) (action : bool) : Prop :=
  exists msg,
    out = Some {| type := t; severity := sv; message := msg;
                  requiresUserAction := action |}.

End Android.

(** ** The on-device collector: [BehavioralBiometricsCollector] *)

Module Collector.

(** *** Kotlin's floating-point arithmetic, as an interface

    Feature values are [Float]s obtained with [Float] arithmetic, [sqrt],
    [ln] and the library's [average], which accumulates in [Double].  The
    collector is written against the operations below and nothing is
    assumed of their rounding.  [faverage] is [average().toFloat()]: the
    mean of a list of [Float]s, summed and divided in [Double], then
    rounded to [Float]; not-a-number on an empty list. *)
Class FloatOps (F : Type) := {
  fzero : F;
  fofLong : Z -> F;
  fadd : F -> F -> F;
  fsub : F -> F -> F;
  fmul : F -> F -> F;
  fdiv : F -> F -> F;
  fsqrt : F -> F;
  fabs : F -> F;
  fneg : F -> F;
  fln : F -> F;
  fgt0 : F -> bool;
  ftoInt : F -> Z;
  faverage : list F -> F
}.

(** Companion-object constants; the cap on sensor samples is the literal
    1000 of [onSensorChanged], and the sensor kinds are
    [android.hardware.Sensor]'s. *)
Definition COLLECTION_INTERVAL_MS : Z := 5000.
Definition MAX_TOUCH_EVENTS : nat := 100.
Definition MAX_TYPING_EVENTS : nat := 50.
Definition MAX_SENSOR_DATA : nat := 1000.
Definition TYPE_ACCELEROMETER : Z := 1.
Definition TYPE_GYROSCOPE : Z := 4.

(** Two's-complement wrap-around of [Long] and [Int] arithmetic. *)
Definition wrapLong (z : Z) : Z := (z + 2 ^ 63) mod 2 ^ 64 - 2 ^ 63.
Definition wrapInt (z : Z) : Z := (z + 2 ^ 31) mod 2 ^ 32 - 2 ^ 31.


(** [String.hashCode()]: [s[0]*31^(n-1) + ... + s[n-1]] in [Int]. *)
Definition hashCode (s : string) : Z :=
  fold_left (fun h c => wrapInt (31 * h + Z.of_N (Ascii.N_of_ascii c)))
            (list_ascii_of_string s) 0.

(** [removeAt(0)] throws on an empty list. *)
Definition removeAt0 {A} (l : list A) : option (list A) :=
  match l with
  | [] => None
  | _ :: rest => Some rest
  end.

(** [zipWithNext] *)
Fixpoint zipWithNext {A B} (f : A -> A -> B) (l : list A) : list B :=
  match l with
  | a :: (b :: _) as rest => f a b :: zipWithNext f rest
  | _ => []
  end.

(** [groupingBy { key }.eachCount()]: the keys in order of first
    occurrence, each with its number of occurrences. *)
Fixpoint bump (k : Z) (histogram : list (Z * nat)) : list (Z * nat) :=
  match histogram with
  | [] => [(k, 1%nat)]
  | (k', n) :: rest =>
      if k =? k' then (k', S n) :: rest else (k', n) :: bump k rest
  end.

Definition eachCount (keys : list Z) : list (Z * nat) :=
  fold_left (fun histogram k => bump k histogram) keys [].

(** [array[i]] throws past the end. *)
Fixpoint traverse {A B} (f : A -> option B) (l : list A) : option (list B) :=
  match l with
  | [] => Some []
  | a :: rest =>
      match f a, traverse f rest with
      | Some b, Some bs => Some (b :: bs)
      | _, _ => None
      end
  end.

Section WithFloats.

Context {F : Type} {ops : FloatOps F}.

(** *** Events *)

Record TouchEvent := {
  touch_timestamp : Z;
  x : F;
  y : F;
  touch_pressure : F;
  size : F;
  touch_duration : Z;
  touch_action : Z
}.

Record TypingEvent := {
  typing_timestamp : Z;
  keyCode : Z;
  dwellTime : Z;
  flightTime : Z;
  typing_pressure : F
}.

Record SensorData := {
  sensor_timestamp : Z;
  sensorType : Z;
  values : list F;
  accuracy : Z
}.

Record NavigationEvent := {
  nav_timestamp : Z;
  screenName : string;
  nav_action : string;
  nav_duration : Z
}.

(** [android.view.MotionEvent] and [android.hardware.SensorEvent], the
    fields the callbacks read. *)
Record MotionEvent := {
  event_x : F;
  event_y : F;
  event_pressure : F;
  event_size : F;
  eventTime : Z;
  downTime : Z;
  event_action : Z
}.

Record SensorEvent := {
  event_sensor_type : Z;
  event_values : list F;
  event_accuracy : Z
}.

(** The device's [BehavioralMetrics], as [processCollectedData] builds it. *)
Record BehavioralMetrics := {
  userId : string;
  metrics_sessionId : string;
  timestamp : Z;
  typingRhythm : list F;
  touchDynamics : list F;
  deviceOrientation : list F;
  navigationPattern : list F;
  deviceFingerprint : string;
  timeOfDay : Z;
  dayOfWeek : Z
}.

(** *** The collector's fields *)

Record Collector := {
  isCollecting : bool;
  touchEvents : list TouchEvent;
  typingEvents : list TypingEvent;
  sensorData : list SensorData;
  navigationEvents : list NavigationEvent;
  sessionId : string;
  sessionStartTime : Z;
  dataCallback : option (BehavioralMetrics -> Outcome unit)
}.

Definition newCollector (uuid : string) : Collector :=
  {| isCollecting := false;
     touchEvents := []; typingEvents := []; sensorData := [];
     navigationEvents := [];
     sessionId := uuid; sessionStartTime := 0; dataCallback := None |}.

Definition withBuffers (c : Collector) (t : list TouchEvent) (k : list TypingEvent)
  (s : list SensorData) (n : list NavigationEvent) : Collector :=
  {| isCollecting := c.(isCollecting);
     touchEvents := t; typingEvents := k; sensorData := s; navigationEvents := n;
     sessionId := c.(sessionId);
     sessionStartTime := c.(sessionStartTime);
     dataCallback := c.(dataCallback) |}.

Definition withTouchEvents (c : Collector) (t : list TouchEvent) : Collector :=
  withBuffers c t c.(typingEvents) c.(sensorData) c.(navigationEvents).

Definition withTypingEvents (c : Collector) (k : list TypingEvent) : Collector :=
  withBuffers c c.(touchEvents) k c.(sensorData) c.(navigationEvents).

Definition withSensorData (c : Collector) (s : list SensorData) : Collector :=
  withBuffers c c.(touchEvents) c.(typingEvents) s c.(navigationEvents).

Definition withNavigationEvents (c : Collector) (n : list NavigationEvent) : Collector :=
  withBuffers c c.(touchEvents) c.(typingEvents) c.(sensorData) n.

Definition withCollecting (c : Collector) (b : bool) : Collector :=
  {| isCollecting := b;
     touchEvents := c.(touchEvents); typingEvents := c.(typingEvents);
     sensorData := c.(sensorData); navigationEvents := c.(navigationEvents);
     sessionId := c.(sessionId);
     sessionStartTime := c.(sessionStartTime);
     dataCallback := c.(dataCallback) |}.

Definition setDataCallback (callback : BehavioralMetrics -> Outcome unit)
  (c : Collector) : Collector :=
  {| isCollecting := c.(isCollecting);
     touchEvents := c.(touchEvents); typingEvents := c.(typingEvents);
     sensorData := c.(sensorData); navigationEvents := c.(navigationEvents);
     sessionId := c.(sessionId);
     sessionStartTime := c.(sessionStartTime);
     dataCallback := Some callback |}.

End WithFloats.

Arguments TouchEvent F : clear implicits.
Arguments TypingEvent F : clear implicits.
Arguments SensorData F : clear implicits.
Arguments NavigationEvent : clear implicits.
Arguments MotionEvent F : clear implicits.
Arguments SensorEvent F : clear implicits.
Arguments BehavioralMetrics F : clear implicits.
Arguments Collector F : clear implicits.

Section Features.

Context {F : Type} {ops : FloatOps F}.

(** *** Helper functions for feature extraction *)

Definition sum (l : list F) : F := fold_left fadd l fzero.

(** [sum()] on a list of [Float]s accumulates in [Float];
    [average().toFloat()] is the arithmetic's. *)
Definition average (l : list F) : F := faverage l.

Definition square (v mean : F) : F := fmul (fsub v mean) (fsub v mean).

Definition standardDeviation (l : list F) : F :=
  let mean := average l in
  let variance := average (map (fun it => square it mean) l) in
  fsqrt variance.

Definition thousand : F := fofLong 1000.

Definition calculateTypingSpeed (events : list (TypingEvent F)) : F :=
  if (List.length events <? 2)%nat then fzero
  else
    match events with
    | [] => fzero
    | first :: _ =>
        let totalTime :=
          wrapLong (typing_timestamp (last events first) - typing_timestamp first) in
        if 0 <? totalTime
        then fdiv (fofLong (Z.of_nat (List.length events)))
                  (fdiv (fofLong totalTime) thousand)
        else fzero
    end.

Definition calculateTypingConsistency (events : list (TypingEvent F)) : F :=
  match events with
  | [] => fzero
  | _ =>
      let dwellTimes := map (fun it => fofLong (dwellTime it)) events in
      let mean := average dwellTimes in
      let variance := average (map (fun it => square it mean) dwellTimes) in
      if fgt0 mean then fdiv variance mean else fzero
  end.

Definition calculatePressureVariation (events : list (TypingEvent F)) : F :=
  match events with
  | [] => fzero
  | _ => standardDeviation (map typing_pressure events)
  end.

Definition calculateEntropy (vals : list F) : F :=
  match vals with
  | [] => fzero
  | _ =>
      let histogram := eachCount (map (fun it => ftoInt (fmul it (fofLong 10))) vals) in
      let total := fofLong (Z.of_nat (List.length vals)) in
      sum (map (fun entry =>
                  let p := fdiv (fofLong (Z.of_nat (snd entry))) total in
                  if fgt0 p then fmul (fneg p) (fln p) else fzero)
               histogram)
  end.

Definition calculateRhythmEntropy (events : list (TypingEvent F)) : F :=
  if (List.length events <? 2)%nat then fzero
  else
    let intervals :=
      zipWithNext (fun a b => wrapLong (typing_timestamp b - typing_timestamp a)) events in
    calculateEntropy (map fofLong intervals).

Definition calculateTypingAcceleration (events : list (TypingEvent F)) : F :=
  if (List.length events <? 3)%nat then fzero
  else
    let speeds :=
      zipWithNext (fun a b =>
                     fdiv thousand
                          (fofLong (wrapLong (typing_timestamp b - typing_timestamp a))))
                  events in
    average (map fabs (zipWithNext (fun a b => fsub b a) speeds)).

Definition touchVelocities (events : list (TouchEvent F)) : list F :=
  zipWithNext (fun a b =>
                 let dx := fsub (x b) (x a) in
                 let dy := fsub (y b) (y a) in
                 let dt := fofLong (wrapLong (touch_timestamp b - touch_timestamp a)) in
                 if fgt0 dt then fdiv (fsqrt (fadd (fmul dx dx) (fmul dy dy))) dt
                 else fzero)
              events.

Definition calculateTouchVelocity (events : list (TouchEvent F)) : F :=
  if (List.length events <? 2)%nat then fzero
  else average (touchVelocities events).

Definition calculateTouchAcceleration (events : list (TouchEvent F)) : F :=
  if (List.length events <? 3)%nat then fzero
  else
    let velocities := touchVelocities events in
    let accelerations := zipWithNext (fun a b => fabs (fsub b a)) velocities in
    average accelerations.

Definition calculateTouchPattern (events : list (TouchEvent F)) : F :=
  match events with
  | [] => fzero
  | _ => standardDeviation (map touch_pressure events)
  end.

(** [sqrt(values[0]^2 + values[1]^2 + values[2]^2)]; no value when the
    sample has fewer than three entries (the index throws). *)
Definition magnitude (it : SensorData F) : option F :=
  match nth_error (values it) 0, nth_error (values it) 1, nth_error (values it) 2 with
  | Some v0, Some v1, Some v2 =>
      Some (fsqrt (fadd (fadd (fmul v0 v0) (fmul v1 v1)) (fmul v2 v2)))
  | _, _, _ => None
  end.

Definition calculateMovementMagnitude (data : list (SensorData F)) : option F :=
  match data with
  | [] => Some fzero
  | _ => option_map average (traverse magnitude data)
  end.

Definition calculateOrientationStability (data : list (SensorData F)) : option F :=
  match data with
  | [] => Some fzero
  | _ => option_map standardDeviation (traverse magnitude data)
  end.

Definition calculateNavigationEntropy (events : list NavigationEvent) : F :=
  let screens := map screenName events in
  calculateEntropy (map (fun it => fofLong (hashCode it)) screens).

Definition calculateNavigationSpeed (events : list NavigationEvent) : F :=
  if (List.length events <? 2)%nat then fzero
  else
    let intervals :=
      zipWithNext (fun a b => wrapLong (nav_timestamp b - nav_timestamp a)) events in
    average (map (fun it => fdiv thousand (fofLong it)) intervals).

(** *** Feature extraction *)

Definition extractTypingRhythm (c : Collector F) : list F :=
  let events := c.(typingEvents) in
  match events with
  | [] => repeat fzero 10
  | _ =>
      let dwellTimes := map (fun it => fofLong (dwellTime it)) events in
      let flightTimes := map (fun it => fofLong (flightTime it)) events in
      [ average dwellTimes;
        standardDeviation dwellTimes;
        average flightTimes;
        standardDeviation flightTimes;
        fofLong (Z.of_nat (List.length events));
        calculateTypingSpeed events;
        calculateTypingConsistency events;
        calculatePressureVariation events;
        calculateRhythmEntropy events;
        calculateTypingAcceleration events ]
  end.

Definition extractTouchDynamics (c : Collector F) : list F :=
  let events := c.(touchEvents) in
  match events with
  | [] => repeat fzero 10
  | _ =>
      let pressures := map touch_pressure events in
      let sizes := map size events in
      let durations := map (fun it => fofLong (touch_duration it)) events in
      [ average pressures;
        standardDeviation pressures;
        average sizes;
        standardDeviation sizes;
        average durations;
        standardDeviation durations;
        calculateTouchVelocity events;
        calculateTouchAcceleration events;
        calculateTouchPattern events;
        fofLong (Z.of_nat (List.length events)) ]
  end.

(** [None]: an accelerometer sample with fewer than three values makes the
    array index throw. *)
Definition extractDeviceOrientation (c : Collector F) : option (list F) :=
  let data := filter (fun it => sensorType it =? TYPE_ACCELEROMETER) c.(sensorData) in
  match data with
  | [] => Some (repeat fzero 8)
  | _ =>
      match traverse (fun it => nth_error (values it) 0) data,
            traverse (fun it => nth_error (values it) 1) data,
            traverse (fun it => nth_error (values it) 2) data with
      | Some xValues, Some yValues, Some zValues =>
          match calculateMovementMagnitude data, calculateOrientationStability data with
          | Some movement, Some stability =>
              Some [ average xValues;
                     standardDeviation xValues;
                     average yValues;
                     standardDeviation yValues;
                     average zValues;
                     standardDeviation zValues;
                     movement;
                     stability ]
          | _, _ => None
          end
      | _, _, _ => None
      end
  end.

Definition extractNavigationPattern (c : Collector F) : list F :=
  let events := c.(navigationEvents) in
  match events with
  | [] => repeat fzero 6
  | _ =>
      let durations := map (fun it => fofLong (nav_duration it)) events in
      let uniqueScreens := List.length (nodup string_dec (map screenName events)) in
      [ fofLong (Z.of_nat (List.length events));
        fofLong (Z.of_nat uniqueScreens);
        average durations;
        standardDeviation durations;
        calculateNavigationEntropy events;
        calculateNavigationSpeed events ]
  end.

End Features.

(** *** Ingestion, the periodic tick and the session

    Every callback runs against what the platform answers at that moment:
    [privacyManager.hasUserConsent()] and [System.currentTimeMillis()]. *)

Record CallEnv := {
  hasUserConsent : bool;
  currentTimeMillis : Z
}.

(** What one run of [processCollectedData] reads from outside: the privacy
    manager's identifiers, the calendar, and the clock at the two places it
    is read (the metrics' timestamp, then the purge). *)
Record TickEnv := {
  anonymizedUserId : string;
  tick_deviceFingerprint : string;
  metricsTime : Z;
  hourOfDay : Z;
  calendarDayOfWeek : Z;
  purgeTime : Z
}.

Section Ingestion.

Context {F : Type} {ops : FloatOps F}.

Definition onTouchEvent (env : CallEnv) (event : MotionEvent F) (c : Collector F)
  : bool * Collector F :=
  if negb c.(isCollecting) || negb env.(hasUserConsent) then (false, c)
  else
    let touchEvent :=
      {| touch_timestamp := env.(currentTimeMillis);
         x := event.(event_x);
         y := event.(event_y);
         touch_pressure := event.(event_pressure);
         size := event.(event_size);
         touch_duration := wrapLong (event.(eventTime) - event.(downTime));
         touch_action := event.(event_action) |} in
    if (List.length c.(touchEvents) <? MAX_TOUCH_EVENTS)%nat
    then (false, withTouchEvents c (c.(touchEvents) ++ [touchEvent])%list)
    else
      match removeAt0 c.(touchEvents) with
      | Some rest => (false, withTouchEvents c (rest ++ [touchEvent])%list)
      | None => (false, c)
      end.

Definition onTypingEvent (env : CallEnv) (keyCode dwellTime flightTime : Z)
  (pressure : F) (c : Collector F) : Collector F :=
  if negb c.(isCollecting) || negb env.(hasUserConsent) then c
  else
    let typingEvent :=
      {| typing_timestamp := env.(currentTimeMillis);
         keyCode := keyCode;
         dwellTime := dwellTime;
         flightTime := flightTime;
         typing_pressure := pressure |} in
    if (List.length c.(typingEvents) <? MAX_TYPING_EVENTS)%nat
    then withTypingEvents c (c.(typingEvents) ++ [typingEvent])%list
    else
      match removeAt0 c.(typingEvents) with
      | Some rest => withTypingEvents c (rest ++ [typingEvent])%list
      | None => c
      end.

Definition onNavigationEvent (env : CallEnv) (screenName action : string)
  (duration : Z) (c : Collector F) : Collector F :=
  if negb c.(isCollecting) || negb env.(hasUserConsent) then c
  else
    let navEvent :=
      {| nav_timestamp := env.(currentTimeMillis);
         screenName := screenName;
         nav_action := action;
         nav_duration := duration |} in
    withNavigationEvents c (c.(navigationEvents) ++ [navEvent])%list.

(** The guard reads the collecting flag and the event, not the consent. *)
Definition onSensorChanged (env : CallEnv) (event : option (SensorEvent F))
  (c : Collector F) : Collector F :=
  match event with
  | None => c
  | Some event =>
      if negb c.(isCollecting) then c
      else
        let sample :=
          {| sensor_timestamp := env.(currentTimeMillis);
             sensorType := event.(event_sensor_type);
             values := event.(event_values);
             accuracy := event.(event_accuracy) |} in
        let added := (c.(sensorData) ++ [sample])%list in
        if (MAX_SENSOR_DATA <? List.length added)%nat
        then
          match removeAt0 added with
          | Some rest => withSensorData c rest
          | None => withSensorData c added
          end
        else withSensorData c added
  end.

Definition clearCollectedData (c : Collector F) : Collector F :=
  withBuffers c [] [] [] [].

(** [removeAll { it.timestamp < cutoffTime }] on each buffer. *)
Definition clearOldData (now : Z) (c : Collector F) : Collector F :=
  let cutoffTime := wrapLong (now - wrapLong (COLLECTION_INTERVAL_MS * 2)) in
  withBuffers c
    (filter (fun it => negb (touch_timestamp it <? cutoffTime)) c.(touchEvents))
    (filter (fun it => negb (typing_timestamp it <? cutoffTime)) c.(typingEvents))
    (filter (fun it => negb (sensor_timestamp it <? cutoffTime)) c.(sensorData))
    (filter (fun it => negb (nav_timestamp it <? cutoffTime)) c.(navigationEvents)).

(** [processCollectedData].  The whole body sits in one [try]: when the
    extraction or the callback throws, the handler logs and the purge that
    closes the body is not reached.  The first component tells which way the
    body ended. *)
Definition processCollectedData (env : TickEnv) (c : Collector F)
  : Outcome (BehavioralMetrics F) * Collector F :=
  let typingRhythm := extractTypingRhythm c in
  let touchDynamics := extractTouchDynamics c in
  match extractDeviceOrientation c with
  | None => (Threw "ArrayIndexOutOfBoundsException", c)
  | Some deviceOrientation =>
      let navigationPattern := extractNavigationPattern c in
      let metrics :=
        {| userId := env.(anonymizedUserId);
           metrics_sessionId := c.(sessionId);
           timestamp := env.(metricsTime);
           typingRhythm := typingRhythm;
           touchDynamics := touchDynamics;
           deviceOrientation := deviceOrientation;
           navigationPattern := navigationPattern;
           deviceFingerprint := env.(tick_deviceFingerprint);
           timeOfDay := env.(hourOfDay);
           dayOfWeek := env.(calendarDayOfWeek) |} in
      match match c.(dataCallback) with
            | Some callback => callback metrics
            | None => Returned tt
            end with
      | Threw err => (Threw err, c)
      | Returned _ => (Returned metrics, clearOldData env.(purgeTime) c)
      end
  end.

(** One turn of the loop of [startPeriodicProcessing], after its delay. *)
Definition tick (env : TickEnv) (c : Collector F) : Collector F :=
  if c.(isCollecting) then snd (processCollectedData env c) else c.

Definition startCollection (env : CallEnv) (uuid : string) (c : Collector F)
  : Outcome unit * Collector F :=
  if c.(isCollecting) then (Returned tt, c)
  else if negb env.(hasUserConsent)
  then (Threw "User consent required for biometric collection", c)
  else
    (Returned tt,
     clearCollectedData
       {| isCollecting := true;
          touchEvents := c.(touchEvents); typingEvents := c.(typingEvents);
          sensorData := c.(sensorData); navigationEvents := c.(navigationEvents);
          sessionId := uuid;
          sessionStartTime := env.(currentTimeMillis);
          dataCallback := c.(dataCallback) |}).

Definition stopCollection (env : TickEnv) (c : Collector F) : Collector F :=
  if negb c.(isCollecting) then c
  else clearCollectedData (snd (processCollectedData env (withCollecting c false))).

Definition cleanup (c : Collector F) : Collector F := clearCollectedData c.

(** The calls a collector receives over its life, in the order they are
    served. *)
Inductive Call :=
| SetDataCallback (callback : BehavioralMetrics F -> Outcome unit)
| StartCollection (env : CallEnv) (uuid : string)
| StopCollection (env : TickEnv)
| Tick (env : TickEnv)
| OnTouchEvent (env : CallEnv) (event : MotionEvent F)
| OnTypingEvent (env : CallEnv) (keyCode dwellTime flightTime : Z) (pressure : F)
| OnNavigationEvent (env : CallEnv) (screenName action : string) (duration : Z)
| OnSensorChanged (env : CallEnv) (event : option (SensorEvent F))
| Cleanup.

Definition serve (c : Collector F) (call : Call) : Collector F :=
  match call with
  | SetDataCallback callback => setDataCallback callback c
  | StartCollection env uuid => snd (startCollection env uuid c)
  | StopCollection env => stopCollection env c
  | Tick env => tick env c
  | OnTouchEvent env event => snd (onTouchEvent env event c)
  | OnTypingEvent env k d f p => onTypingEvent env k d f p c
  | OnNavigationEvent env s a d => onNavigationEvent env s a d c
  | OnSensorChanged env event => onSensorChanged env event c
  | Cleanup => cleanup c
  end.

Definition run (calls : list Call) (c : Collector F) : Collector F :=
  fold_left serve calls c.

(** The three caps, as one invariant of the collector. *)
Definition within_caps (c : Collector F) : Prop :=
  (List.length c.(touchEvents) <= MAX_TOUCH_EVENTS)%nat /\
  (List.length c.(typingEvents) <= MAX_TYPING_EVENTS)%nat /\
  (List.length c.(sensorData) <= MAX_SENSOR_DATA)%nat.


End Ingestion.

Arguments Call F : clear implicits.

(** *** An arithmetic to run the collector with

    Binary32 operations of [SpecFloat]; the logarithm is the caller's. *)
Definition toInt (v : spec_float) : Z :=
  match v with
  | S754_zero _ | S754_nan => 0
  | S754_infinity s => if s then - 2 ^ 31 else 2 ^ 31 - 1
  | S754_finite s m e =>
      let magnitude :=
        if 0 <=? e then Z.pos m * 2 ^ e else Z.pos m / 2 ^ (- e) in
      let signed := if s then - magnitude else magnitude in
      Z.max (- 2 ^ 31) (Z.min (2 ^ 31 - 1) signed)
  end.

(** [Double.toFloat()] *)
Definition toFloat (d : spec_float) : spec_float :=
  match d with
  | S754_finite s m e => binary_normalize 24 128 (if s then Z.neg m else Z.pos m) e s
  | _ => d
  end.

(** [Iterable<Float>.average().toFloat()]: every element is widened to
    [Double] (a binary32 number is a binary64 number), the sum and the
    quotient by the count are binary64, the result is rounded once. *)
Definition average32 (l : list spec_float) : spec_float :=
  match l with
  | [] => S754_nan
  | _ =>
      toFloat
        (SFdiv 53 1024
           (fold_left (SFadd 53 1024) l (S754_zero false))
           (binary_normalize 53 1024 (Z.of_nat (List.length l)) 0 false))
  end.

Definition binary32 (ln : spec_float -> spec_float) : FloatOps spec_float :=
  {| fzero := S754_zero false;
     fofLong := fun z => binary_normalize 24 128 z 0 false;
     fadd := SFadd 24 128;
     fsub := SFsub 24 128;
     fmul := SFmul 24 128;
     fdiv := SFdiv 24 128;
     fsqrt := SFsqrt 24 128;
     fabs := SFabs;
     fneg := SFopp;
     fln := ln;
     fgt0 := fun v => SFltb (S754_zero false) v;
     ftoInt := toInt;
     faverage := average32 |}.

End Collector.

(** ** The activity: [MainActivity]

    The three state variables of the activity and the collector it owns.
    Scores are Kotlin [Float]s; the fraud model, the security handler and
    the privacy manager are collaborators whose answers are arguments. *)

Module Activity.

(** [BiometricPrompt.AUTHENTICATION_RESULT_TYPE_BIOMETRIC] *)
Definition AUTHENTICATION_RESULT_TYPE_BIOMETRIC : Z := 2.

Record Activity := {
  isCollectingBiometrics : bool;
  currentRiskScore : spec_float;
  securityStatus : string;
  biometricsCollector : Collector.Collector spec_float
}.

(** The state once [initializeBankGuardAI] has built the collector. *)
Definition initialized (uuid : string) : Activity :=
  {| isCollectingBiometrics := false;
     currentRiskScore := S754_zero false;
     securityStatus := "Secure";
     biometricsCollector := Collector.newCollector uuid |}.

Definition withStatus (a : Activity) (status : string) : Activity :=
  {| isCollectingBiometrics := a.(isCollectingBiometrics);
     currentRiskScore := a.(currentRiskScore);
     securityStatus := status;
     biometricsCollector := a.(biometricsCollector) |}.

Definition withRiskScore (a : Activity) (riskScore : spec_float) : Activity :=
  {| isCollectingBiometrics := a.(isCollectingBiometrics);
     currentRiskScore := riskScore;
     securityStatus := a.(securityStatus);
     biometricsCollector := a.(biometricsCollector) |}.

Definition updateSecurityStatus (response : Android.SecurityResponse) (a : Activity)
  : Activity :=
  withStatus a
    match response.(Android.severity) with
    | Android.CRITICAL => "Critical Alert"
    | Android.HIGH => "High Risk"
    | Android.MEDIUM => "Medium Risk"
    | Android.LOW => "Low Risk"
    end.

(** [processBehavioralMetrics]: the body of the coroutine.  [predict] is
    what [fraudDetectionModel.predict(metrics)] does, [executeResponse]
    what the security handler does with a response; an exception of either
    ends the body in its handler.  Sending the anonymized record runs in a
    coroutine of its own and touches no state. *)
Definition processBehavioralMetrics {Metrics : Type}
  (predict : Metrics -> Outcome spec_float)
  (executeResponse : Android.SecurityResponse -> Outcome unit)
  (metrics : Metrics) (a : Activity) : Activity :=
  match predict metrics with
  | Threw _ => a
  | Returned riskScore =>
      let a := withRiskScore a riskScore in
      match Android.determineSecurityResponse riskScore metrics with
      | None => a
      | Some response =>
          match executeResponse response with
          | Threw _ => a
          | Returned _ => updateSecurityStatus response a
          end
      end
  end.


Definition handleBiometricAuthentication (authenticationType : Z) (a : Activity)
  : Activity :=
  if authenticationType =? AUTHENTICATION_RESULT_TYPE_BIOMETRIC
  then withStatus a "Secure"
  else withStatus a "Warning".

Section WithArithmetic.

Context {ops : Collector.FloatOps spec_float}.

(** [consent] is the privacy manager's answer to the activity, [env] what
    the collector reads when it is started. *)
Definition startBiometricCollection (consent : bool) (env : Collector.CallEnv)
  (uuid : string) (a : Activity) : Activity :=
  if negb consent then a
  else
    match Collector.startCollection env uuid a.(biometricsCollector) with
    | (Returned _, collector) =>
        {| isCollectingBiometrics := true;
           currentRiskScore := a.(currentRiskScore);
           securityStatus := "Monitoring";
           biometricsCollector := collector |}
    | (Threw _, collector) =>
        {| isCollectingBiometrics := a.(isCollectingBiometrics);
           currentRiskScore := a.(currentRiskScore);
           securityStatus := a.(securityStatus);
           biometricsCollector := collector |}
    end.

Definition stopBiometricCollection (env : Collector.TickEnv) (a : Activity)
  : Activity :=
  {| isCollectingBiometrics := false;
     currentRiskScore := S754_zero false;
     securityStatus := "Inactive";
     biometricsCollector := Collector.stopCollection env a.(biometricsCollector) |}.

Definition toggleBiometricCollection (consent : bool) (env : Collector.CallEnv)
  (uuid : string) (last : Collector.TickEnv) (a : Activity) : Activity :=
  if a.(isCollectingBiometrics)
  then stopBiometricCollection last a
  else startBiometricCollection consent env uuid a.

(** What the user and the collector make the activity do, in order. *)
Inductive Event {Metrics : Type} :=
| Toggle (consent : bool) (env : Collector.CallEnv) (uuid : string)
         (last : Collector.TickEnv)
| MetricsReady (predict : Metrics -> Outcome spec_float)
               (executeResponse : Android.SecurityResponse -> Outcome unit)
               (metrics : Metrics)
| Authenticated (authenticationType : Z).

Definition handle {Metrics : Type} (a : Activity) (e : @Event Metrics) : Activity :=
  match e with
  | Toggle consent env uuid last => toggleBiometricCollection consent env uuid last a
  | MetricsReady predict executeResponse metrics =>
      processBehavioralMetrics predict executeResponse metrics a
  | Authenticated authenticationType =>
      handleBiometricAuthentication authenticationType a
  end.

End WithArithmetic.

End Activity.

(** ** Inputs for the worked cases *)

Module Inputs.

Local Open Scope float_scope.

(** A well-formed record with the given score and flags. *)
Definition scored (score : float) (flags : list string) : Server.BehavioralMetrics :=
  {| Server.userId := "user-17";
     Server.sessionId := "session-42";
     Server.timestamp := 1700000000000;
     Server.typingRhythm := [];
     Server.touchDynamics := [];
     Server.deviceOrientation := [];
     Server.navigationPattern := [];
     Server.riskScore := score;
     Server.anomalyFlags := flags;
     Server.confidenceLevel := 0.9;
     Server.deviceFingerprint := "a1b2c3d4e5f6";
     Server.locationHash := None;
     Server.timeOfDay := 14;
     Server.dayOfWeek := 2 |}.

(** The same score and flags on another device, at another time, with
    other feature vectors. *)
Definition scoredElsewhere (score : float) (flags : list string)
  : Server.BehavioralMetrics :=
  {| Server.userId := "user-99";
     Server.sessionId := "session-7";
     Server.timestamp := 1800000000000;
     Server.typingRhythm := [1; 2; 3];
     Server.touchDynamics := [0.5];
     Server.deviceOrientation := [9.8];
     Server.navigationPattern := [4];
     Server.riskScore := score;
     Server.anomalyFlags := flags;
     Server.confidenceLevel := 0.2;
     Server.deviceFingerprint := "ffffffffffff";
     Server.locationHash := Some "loc";
     Server.timeOfDay := 3;
     Server.dayOfWeek := 6 |}.

(** The response that ends a session. *)
Definition terminated : option Server.SecurityResponse :=
  Some {| Server.type := Server.session_termination;
          Server.severity := Server.high;
          Server.message := "Session terminated due to unusual activity patterns.";
          Server.requiresUserAction := true;
          Server.expiresAt := None |}.

(** Collaborators that all answer: the database writes every row, the
    vector store finds nothing, the alert service accepts the alert.  The
    text functions stand for the platform's. *)
Definition calm : Server.Env :=
  {| Server.now := 1700000000000%Z;
     Server.analysisClock := 1700000000040%Z;
     Server.alertClock := 1700000000050%Z;
     Server.alertTimestampClock := 1700000000051%Z;
     Server.sha256_hex := fun _ => "9f86d081884c7d659a2feaa0c55ad015";
     Server.toISOString := fun _ => Some "2023-11-14T22:13:20.000Z";
     Server.toFixed2 := fun _ => "0.00";
     Server.numberToString := fun _ => "0";
     Server.metricsInsert := Returned None;
     Server.embeddings := Returned tt;
     Server.collection := Some (fun _ => Returned []);
     Server.analysisInsert := Returned None;
     Server.createAlert := Returned tt |}.

(** The same, with a database that rejects the metrics row. *)
Definition databaseDown : Server.Env :=
  {| Server.now := 1700000000000%Z;
     Server.analysisClock := 1700000000040%Z;
     Server.alertClock := 1700000000050%Z;
     Server.alertTimestampClock := 1700000000051%Z;
     Server.sha256_hex := fun _ => "9f86d081884c7d659a2feaa0c55ad015";
     Server.toISOString := fun _ => Some "2023-11-14T22:13:20.000Z";
     Server.toFixed2 := fun _ => "0.00";
     Server.numberToString := fun _ => "0";
     Server.metricsInsert := Threw "connection refused";
     Server.embeddings := Returned tt;
     Server.collection := Some (fun _ => Returned []);
     Server.analysisInsert := Returned None;
     Server.createAlert := Returned tt |}.

(** The same as [calm], with an embedding service that fails and a vector
    store that throws. *)
Definition ragDown : Server.Env :=
  {| Server.now := 1700000000000%Z;
     Server.analysisClock := 1700000000040%Z;
     Server.alertClock := 1700000000050%Z;
     Server.alertTimestampClock := 1700000000051%Z;
     Server.sha256_hex := fun _ => "9f86d081884c7d659a2feaa0c55ad015";
     Server.toISOString := fun _ => Some "2023-11-14T22:13:20.000Z";
     Server.toFixed2 := fun _ => "0.00";
     Server.numberToString := fun _ => "0";
     Server.metricsInsert := Returned None;
     Server.embeddings := Threw "embedding service unavailable";
     Server.collection := Some (fun _ => Threw "vector store unreachable");
     Server.analysisInsert := Returned None;
     Server.createAlert := Returned tt |}.

(** The collector runs on binary32 numbers.  No run below reaches
    [calculateEntropy] with an event, so none takes a logarithm, and the
    logarithm is left undefined. *)
Definition arithmetic : Collector.FloatOps spec_float :=
  Collector.binary32 (fun _ => S754_nan).

Definition consenting (t : Z) : Collector.CallEnv :=
  {| Collector.hasUserConsent := true; Collector.currentTimeMillis := t |}.

Definition withdrawn (t : Z) : Collector.CallEnv :=
  {| Collector.hasUserConsent := false; Collector.currentTimeMillis := t |}.

(** A collector in the middle of a session, buffers empty. *)
Definition collecting : Collector.Collector spec_float :=
  snd (Collector.startCollection (consenting 0) "3f2c9a52-session"
         (Collector.newCollector "initial")).

(** One accelerometer reading, the device lying flat: (0, 0, 9.75). *)
Definition flat : Collector.SensorEvent spec_float :=
  {| Collector.event_sensor_type := Collector.TYPE_ACCELEROMETER;
     Collector.event_values :=
       [S754_zero false; S754_zero false; S754_finite false 39 (-2)];
     Collector.event_accuracy := 3 |}.

(** One gyroscope reading, the device at rest. *)
Definition still : Collector.SensorEvent spec_float :=
  {| Collector.event_sensor_type := Collector.TYPE_GYROSCOPE;
     Collector.event_values := [S754_zero false; S754_zero false; S754_zero false];
     Collector.event_accuracy := 3 |}.

Definition tap : Collector.MotionEvent spec_float :=
  {| Collector.event_x := S754_finite false 120 0;
     Collector.event_y := S754_finite false 640 0;
     Collector.event_pressure := S754_finite false 1 (-1);
     Collector.event_size := S754_finite false 1 (-2);
     Collector.eventTime := 5080;
     Collector.downTime := 5000;
     Collector.event_action := 1 |}.

(** A tick at one minute past the session's start. *)
Definition atOneMinute : Collector.TickEnv :=
  {| Collector.anonymizedUserId := "anon-5e1f";
     Collector.tick_deviceFingerprint := "a1b2c3d4e5f6";
     Collector.metricsTime := 60000;
     Collector.hourOfDay := 14;
     Collector.calendarDayOfWeek := 3;
     Collector.purgeTime := 60000 |}.

(** A session with a callback that returns, which has taken one gyroscope
    reading at time 1000 and one at 55000. *)
Definition staleWithSoundCallback : Collector.Collector spec_float :=
  Collector.run (ops := arithmetic)
    [Collector.SetDataCallback (fun _ => Returned tt);
     Collector.OnSensorChanged (consenting 1000) (Some still);
     Collector.OnSensorChanged (consenting 55000) (Some still)]
    collecting.


(** A session whose touch buffer is full: one touch at time 1, then 99
    touches at time 2. *)
Definition fullOfTouches : Collector.Collector spec_float :=
  Collector.run (ops := arithmetic)
    (Collector.OnTouchEvent (consenting 1) tap
     :: repeat (Collector.OnTouchEvent (consenting 2) tap) 99)
    collecting.

End Inputs.

(** * Properties *)

(** ** Comparisons against a threshold *)

Module IEEEFacts.

Import IEEE.

Ltac thr_cases a b m n :=
  destruct (Z.compare_spec a b);
  change (PosDef.Pos.compare_cont Eq m n) with (Pos.compare m n);
  try destruct (Pos.compare_spec m n).

Ltac bool_prop := split; intros; auto; try discriminate; try tauto; try lia.

Lemma SFltb_thr x m e : SFltb x (thr m e) = true <-> below x m e.
Proof.
  unfold SFltb, SFcompare, thr, below.
  destruct x as [s|s| |s m' e']; try destruct s; try thr_cases e' e m' m; bool_prop.
Qed.

Lemma SFgeb_thr x m e : SFgeb x (thr m e) = true <-> at_least x m e.
Proof.
  unfold SFgeb, SFleb, SFcompare, thr, at_least.
  destruct x as [s|s| |s m' e']; try destruct s; try thr_cases e e' m m'; bool_prop.
Qed.

Lemma SFltb_thr_false x m e : SFltb x (thr m e) = false -> ~ below x m e.
Proof. intros H B. apply SFltb_thr in B. congruence. Qed.

Lemma SFgeb_thr_false x m e : SFgeb x (thr m e) = false -> ~ at_least x m e.
Proof. intros H B. apply SFgeb_thr in B. congruence. Qed.

(** Turn every comparison of [x] with a threshold, true or false, into a
    statement about the representation of [x], then split on [x]. *)
Ltac thr_props :=
  repeat match goal with
  | H : SFltb _ (thr _ _) = true |- _ => apply SFltb_thr in H
  | H : SFltb _ (thr _ _) = false |- _ => apply SFltb_thr_false in H
  | H : SFgeb _ (thr _ _) = true |- _ => apply SFgeb_thr in H
  | H : SFgeb _ (thr _ _) = false |- _ => apply SFgeb_thr_false in H
  end.

Ltac thr_solve x :=
  thr_props;
  destruct x as [[]|[]| |[] ? ?]; unfold below, at_least in *;
  try reflexivity; try discriminate; try tauto; try lia.

End IEEEFacts.

(** ** The server's tiers *)

Module ServerFacts.

Import IEEE IEEEFacts Server.

Local Open Scope float_scope.

Lemma LOW_repr : Prim2SF LOW = thr 5404319552844595 (-54).
Proof. reflexivity. Qed.

Lemma MEDIUM_repr : Prim2SF MEDIUM = thr 5404319552844595 (-53).
Proof. reflexivity. Qed.

Lemma HIGH_repr : Prim2SF HIGH = thr 7205759403792794 (-53).
Proof. reflexivity. Qed.

Lemma CRITICAL_repr : Prim2SF CRITICAL = thr 8556839292003942 (-53).
Proof. reflexivity. Qed.

Lemma ltb_SF (r t : float) : (r <? t) = SFltb (Prim2SF r) (Prim2SF t).
Proof. apply ltb_spec. Qed.

Lemma geb_SF (r t : float) : geb r t = SFgeb (Prim2SF r) (Prim2SF t).
Proof. unfold geb, SFgeb. apply leb_spec. Qed.

Lemma gtb_SF (r t : float) : gtb r t = SFltb (Prim2SF t) (Prim2SF r).
Proof. unfold gtb. apply ltb_spec. Qed.

(** Rewrite the comparisons of a score with the four thresholds into
    comparisons of its representation. *)
Ltac to_repr :=
  rewrite ?ltb_SF, ?geb_SF, ?LOW_repr, ?MEDIUM_repr, ?HIGH_repr, ?CRITICAL_repr in *.

Ltac tier m :=
  unfold determineSecurityResponse; intros;
  repeat match goal with
         | |- context [if ?b then _ else _] => let E := fresh "E" in destruct b eqn:E
         end;
  try reflexivity; exfalso; to_repr; thr_solve (Prim2SF (riskScore m)).

(** The five branches of [determineSecurityResponse], each under the
    comparisons of the score that select it. *)
Lemma determine_none now m :
  (riskScore m <? LOW) = true -> determineSecurityResponse now m = None.
Proof. tier m. Qed.

Lemma determine_silent now m :
  geb (riskScore m) LOW = true -> (riskScore m <? MEDIUM) = true ->
  determineSecurityResponse now m =
  Some {| type := silent_faceid; severity := low;
          message := "Background security check in progress.";
          requiresUserAction := false; expiresAt := None |}.
Proof. tier m. Qed.

Lemma determine_step_up now m :
  geb (riskScore m) MEDIUM = true -> (riskScore m <? HIGH) = true ->
  determineSecurityResponse now m =
  Some {| type := selectAuthenticationMethod (anomalyFlags m); severity := medium;
          message := "Additional verification required for security.";
          requiresUserAction := true; expiresAt := Some (now + 5 * 60 * 1000)%Z |}.
Proof. tier m. Qed.

Lemma determine_terminate now m :
  geb (riskScore m) HIGH = true -> (riskScore m <? CRITICAL) = true ->
  determineSecurityResponse now m =
  Some {| type := session_termination; severity := high;
          message := "Session terminated due to unusual activity patterns.";
          requiresUserAction := true; expiresAt := None |}.
Proof. tier m. Qed.

Lemma determine_lock now m :
  geb (riskScore m) CRITICAL = true ->
  determineSecurityResponse now m =
  Some {| type := account_lock; severity := critical;
          message := "Suspicious activity detected. Account temporarily locked for security.";
          requiresUserAction := true; expiresAt := None |}.
Proof. tier m. Qed.

(** A response is terminal exactly from [HIGH] upwards. *)
Lemma terminal_iff_high now m :
  terminal (kind (determineSecurityResponse now m)) = geb (riskScore m) HIGH.
Proof.
  unfold determineSecurityResponse.
  destruct (geb (riskScore m) HIGH) eqn:EH;
  repeat match goal with
         | |- context [if ?b then _ else _] => let E := fresh "E" in destruct b eqn:E
         end; simpl;
  try reflexivity; exfalso; to_repr; thr_solve (Prim2SF (riskScore m)).
Qed.

Lemma includes_In flags tag : includes flags tag = true <-> In tag flags.
Proof.
  unfold includes. rewrite existsb_exists. split.
  - intros (t & Hin & E). apply String.eqb_eq in E. now subst.
  - intros Hin. exists tag. split; [assumption | apply String.eqb_refl].
Qed.

Lemma includes_false flags tag : includes flags tag = false <-> ~ In tag flags.
Proof.
  rewrite <- includes_In. destruct (includes flags tag); split; congruence.
Qed.

(** The method depends on the flags through membership only. *)
Lemma select_ext flags flags' :
  (forall tag, In tag flags <-> In tag flags') ->
  selectAuthenticationMethod flags = selectAuthenticationMethod flags'.
Proof.
  intros H. unfold selectAuthenticationMethod.
  assert (E : forall tag, includes flags tag = includes flags' tag).
  { intros tag. destruct (includes flags' tag) eqn:E'.
    - apply includes_In, H, includes_In, E'.
    - apply includes_false. intros Hin. apply H in Hin.
      apply includes_In in Hin. congruence. }
  now rewrite !E.
Qed.

End ServerFacts.

(** ** The client's tiers *)

Module AndroidFacts.

Import IEEE IEEEFacts Android.

Lemma lit_0_3 : lit 3 10 = thr 10066330 (-25).
Proof. reflexivity. Qed.

Lemma lit_0_6 : lit 6 10 = thr 10066330 (-24).
Proof. reflexivity. Qed.

Lemma lit_0_8 : lit 8 10 = thr 13421773 (-24).
Proof. reflexivity. Qed.

Lemma lit_0_95 : lit 95 100 = thr 15938355 (-24).
Proof. reflexivity. Qed.

Ltac to_repr := unfold geb in *; rewrite ?lit_0_3, ?lit_0_6, ?lit_0_8, ?lit_0_95 in *.

Ltac tier r :=
  unfold determineSecurityResponse; intros; to_repr;
  repeat match goal with
         | |- context [if ?b then _ else _] => let E := fresh "E" in destruct b eqn:E
         end;
  try reflexivity; exfalso; thr_solve r.

Section Tiers.

Context {Metrics : Type} (r : spec_float) (metrics : Metrics).

Lemma client_none :
  SFltb r (lit 3 10) = true -> determineSecurityResponse r metrics = None.
Proof. tier r. Qed.

Lemma client_silent :
  geb r (lit 3 10) = true -> SFltb r (lit 6 10) = true ->
  determineSecurityResponse r metrics =
  Some {| type := SILENT_FACEID; severity := LOW;
          message := "Background security check.";
          requiresUserAction := false |}.
Proof. tier r. Qed.

Lemma client_step_up :
  geb r (lit 6 10) = true -> SFltb r (lit 8 10) = true ->
  determineSecurityResponse r metrics =
  Some {| type := OTP_CHALLENGE; severity := MEDIUM;
          message := "Additional verification required.";
          requiresUserAction := true |}.
Proof. tier r. Qed.

Lemma client_terminate :
  geb r (lit 8 10) = true -> SFltb r (lit 95 100) = true ->
  determineSecurityResponse r metrics =
  Some {| type := SESSION_TERMINATION; severity := HIGH;
          message := "High risk activity detected. Session terminated.";
          requiresUserAction := true |}.
Proof. tier r. Qed.

Lemma client_lock :
  geb r (lit 95 100) = true ->
  determineSecurityResponse r metrics =
  Some {| type := ACCOUNT_LOCK; severity := CRITICAL;
          message := "Critical security threat detected. Account locked.";
          requiresUserAction := true |}.
Proof. tier r. Qed.

End Tiers.

End AndroidFacts.

(** ** One call of [processBehavioralMetrics] *)

Module ServiceFacts.

Import Server.

Lemma bind_returned {A B} (c : M A) (k : A -> M B) s b s' :
  bind c k s = (Returned b, s') ->
  exists a s1, c s = (Returned a, s1) /\ k a s1 = (Returned b, s').
Proof.
  unfold bind. destruct (c s) as [[a | err] s1]; intros H.
  - now exists a, s1.
  - discriminate.
Qed.

(** A handler that logs and throws again lets no result through. *)
Lemma rethrow_returned {A} (c : M A) (t : string) s a s' :
  try_catch c (fun err => log error t ;;; throw err) s = (Returned a, s') ->
  c s = (Returned a, s').
Proof.
  unfold try_catch. destruct (c s) as [[a' | err] s1]; intros H.
  - exact H.
  - discriminate.
Qed.

(** Whatever the service has been through, a call that returns returns the
    response determined from its own metrics. *)
Lemma process_returned env m s out s' :
  processBehavioralMetrics env m s = (Returned out, s') ->
  out = determineSecurityResponse env.(now) m.
Proof.
  unfold processBehavioralMetrics. intros H.
  apply rethrow_returned in H.
  repeat (apply bind_returned in H; destruct H as (? & ? & _ & H)).
  unfold ret in H. congruence.
Qed.

Ltac run :=
  unfold storeFraudAnalysis, queryFraudPatterns, generateEmbeddings,
    try_catch, bind, lift, ret, throw,
    log, insertAnalytics, insertAnalysis, recordRagQuery, storeAlert, emit;
  cbn [logs behavioral_analytics ragQueries fraud_analysis alerts emitted fst snd].

Ltac done_with_state :=
  eexists; split; [reflexivity|];
  cbn [logs behavioral_analytics ragQueries fraud_analysis alerts emitted];
  repeat split; rewrite ?app_nil_r; auto; intros;
  rewrite ?in_app_iff; unfold queryError; cbn [In]; auto; try congruence.

(** [analyzeWithRAG] always returns: it sends one query, touches neither the
    alerts nor what was emitted, keeps the log's entries, and logs the
    failure of the vector store. *)
Lemma analyzeWithRAG_total env m s :
  exists s1,
    analyzeWithRAG env m s = (Returned tt, s1) /\
    ragQueries s1 = (ragQueries s ++ [buildRAGQuery env m])%list /\
    emitted s1 = emitted s /\
    alerts s1 = alerts s /\
    (forall e, In e (logs s) -> In e (logs s1)) /\
    (forall search err,
        env.(collection) = Some search ->
        search (buildRAGQuery env m) = Threw err ->
        In queryError (logs s1)).
Proof.
  unfold analyzeWithRAG. run.
  destruct (collection env) as [search|] eqn:Ec; run.
  - destruct (embeddings env) as [[] | failure]; run;
      destruct (search (buildRAGQuery env m)) as [patterns | err] eqn:Es; run.
    1, 3: destruct (0 <? List.length patterns)%nat; run;
      [destruct (analysisInsert env) as [[e|]|e]; run |]; done_with_state.
    all: done_with_state.
  - done_with_state.
Qed.

(** [sendRealTimeAlert] always returns; the alert is emitted when the alert
    service accepted it. *)
Lemma sendRealTimeAlert_total env m r s :
  exists s1,
    sendRealTimeAlert env m r s = (Returned tt, s1) /\
    ragQueries s1 = ragQueries s /\
    emitted s1 =
      (emitted s ++ match env.(createAlert) with
                    | Returned _ => [alertFor env m r]
                    | Threw _ => []
                    end)%list /\
    (forall e, In e (logs s) -> In e (logs s1)).
Proof.
  unfold sendRealTimeAlert. run.
  destruct (createAlert env) as [[]|err]; run; done_with_state.
Qed.

(** Storing the metrics returns when the timestamp is a date and the
    database wrote the row. *)
Lemma storeAnonymizedMetrics_stored env m s iso :
  env.(toISOString) m.(timestamp) = Some iso ->
  env.(metricsInsert) = Returned None ->
  exists s1,
    storeAnonymizedMetrics env m s = (Returned tt, s1) /\
    ragQueries s1 = ragQueries s /\
    emitted s1 = emitted s /\
    (forall e, In e (logs s) -> In e (logs s1)).
Proof.
  intros Hiso Hins. unfold storeAnonymizedMetrics. rewrite Hiso. run.
  rewrite Hins. run. done_with_state.
Qed.

(** The [i]-th response of a session is what the [i]-th tick's call gave
    in the state the service had reached. *)
Lemma runSession_nth ticks : forall s i env m o,
  nth_error ticks i = Some (env, m) ->
  nth_error (fst (runSession ticks s)) i = Some o ->
  exists si, o = fst (processBehavioralMetrics env m si).
Proof.
  induction ticks as [| [env0 m0] rest IH]; intros s i env m o Ht Hr.
  - destruct i; discriminate.
  - cbn [runSession] in Hr.
    destruct (processBehavioralMetrics env0 m0 s) as [r s1] eqn:E0.
    destruct (runSession rest s1) as [rs s2] eqn:E1.
    destruct i as [| i]; cbn in Ht, Hr.
    + injection Ht as -> ->. injection Hr as <-.
      exists s. now rewrite E0.
    + apply (IH s1 i env m o Ht). now rewrite E1.
Qed.

End ServiceFacts.

(** ** The response engine *)

Section ResponseEngine.

Import IEEE IEEEFacts.

Local Open Scope float_scope.

(** C1.  The response is fixed by the tier of the risk score, tiers being
    half-open with the boundary in the higher tier: below 0.3 nothing; from
    0.3 and below 0.6 a silent challenge (low, no user action); from 0.6 and
    below 0.8 a step-up challenge (medium); from 0.8 and below 0.95 the
    session is terminated (high, user action); from 0.95 the account is
    locked (critical, user action).  This holds of the server's
    [determineSecurityResponse] on binary64 scores and of the client's on
    binary32 scores; in particular 0.3 gives the silent challenge, 0.2999
    nothing, 0.9499 the termination and 0.95 the lock, in both. *)
Theorem risk_tiers_half_open :
  forall (now : Z) (m : Server.BehavioralMetrics)
         (Metrics : Type) (score : spec_float) (metrics : Metrics),
    let r := Server.riskScore m in
    let out := Server.determineSecurityResponse now m in
    let out' := Android.determineSecurityResponse score metrics in
    (* the server *)
    ((r <? 0.3) = true -> out = None) /\
    (Server.geb r 0.3 = true -> (r <? 0.6) = true ->
     Server.kind out = SilentChallenge /\
     Server.responds out Server.silent_faceid Server.low false None) /\
    (Server.geb r 0.6 = true -> (r <? 0.8) = true ->
     Server.kind out = StepUpChallenge /\
     Server.responds out (Server.selectAuthenticationMethod (Server.anomalyFlags m))
       Server.medium true (Some (now + 5 * 60 * 1000)%Z)) /\
    (Server.geb r 0.8 = true -> (r <? 0.95) = true ->
     Server.kind out = SessionTerminate /\
     Server.responds out Server.session_termination Server.high true None) /\
    (Server.geb r 0.95 = true ->
     Server.kind out = AccountLock /\
     Server.responds out Server.account_lock Server.critical true None) /\
    (r = 0.3 -> Server.kind out = SilentChallenge) /\
    (r = 0.2999 -> Server.kind out = NoResponse) /\
    (r = 0.9499 -> Server.kind out = SessionTerminate) /\
    (r = 0.95 -> Server.kind out = AccountLock) /\
    (* the client *)
    (SFltb score (Android.lit 3 10) = true -> out' = None) /\
    (Android.geb score (Android.lit 3 10) = true ->
     SFltb score (Android.lit 6 10) = true ->
     Android.kind out' = SilentChallenge /\
     Android.responds out' Android.SILENT_FACEID Android.LOW false) /\
    (Android.geb score (Android.lit 6 10) = true ->
     SFltb score (Android.lit 8 10) = true ->
     Android.kind out' = StepUpChallenge /\
     Android.responds out' Android.OTP_CHALLENGE Android.MEDIUM true) /\
    (Android.geb score (Android.lit 8 10) = true ->
     SFltb score (Android.lit 95 100) = true ->
     Android.kind out' = SessionTerminate /\
     Android.responds out' Android.SESSION_TERMINATION Android.HIGH true) /\
    (Android.geb score (Android.lit 95 100) = true ->
     Android.kind out' = AccountLock /\
     Android.responds out' Android.ACCOUNT_LOCK Android.CRITICAL true) /\
    (score = Android.lit 3 10 -> Android.kind out' = SilentChallenge) /\
    (score = Android.lit 2999 10000 -> Android.kind out' = NoResponse) /\
    (score = Android.lit 9499 10000 -> Android.kind out' = SessionTerminate) /\
    (score = Android.lit 95 100 -> Android.kind out' = AccountLock).
Proof.
  intros now m Metrics score metrics r out out'.
  repeat match goal with |- _ /\ _ => split end.
  - apply ServerFacts.determine_none.
  - intros H1 H2. subst out. rewrite (ServerFacts.determine_silent now m H1 H2).
    split; [reflexivity | eexists; reflexivity].
  - intros H1 H2. subst out. rewrite (ServerFacts.determine_step_up now m H1 H2).
    split; [reflexivity | eexists; reflexivity].
  - intros H1 H2. subst out. rewrite (ServerFacts.determine_terminate now m H1 H2).
    split; [reflexivity | eexists; reflexivity].
  - intros H1. subst out. rewrite (ServerFacts.determine_lock now m H1).
    split; [reflexivity | eexists; reflexivity].
  - intros E. subst out. rewrite (ServerFacts.determine_silent now m); fold r;
      try rewrite E; reflexivity.
  - intros E. subst out. rewrite (ServerFacts.determine_none now m); fold r;
      try rewrite E; reflexivity.
  - intros E. subst out. rewrite (ServerFacts.determine_terminate now m); fold r;
      try rewrite E; reflexivity.
  - intros E. subst out. rewrite (ServerFacts.determine_lock now m); fold r;
      try rewrite E; reflexivity.
  - apply AndroidFacts.client_none.
  - intros H1 H2. subst out'. rewrite (AndroidFacts.client_silent score metrics H1 H2).
    split; [reflexivity | eexists; reflexivity].
  - intros H1 H2. subst out'. rewrite (AndroidFacts.client_step_up score metrics H1 H2).
    split; [reflexivity | eexists; reflexivity].
  - intros H1 H2. subst out'. rewrite (AndroidFacts.client_terminate score metrics H1 H2).
    split; [reflexivity | eexists; reflexivity].
  - intros H1. subst out'. rewrite (AndroidFacts.client_lock score metrics H1).
    split; [reflexivity | eexists; reflexivity].
  - intros ->. reflexivity.
  - intros ->. reflexivity.
  - intros ->. reflexivity.
  - intros ->. reflexivity.
Qed.

(** C1, at a score of 0.45 on the server and of 0.7 on the client. *)
Lemma risk_tiers_half_open_witness :
  Server.kind (Server.determineSecurityResponse 0 (Inputs.scored 0.45 []))
  = SilentChallenge /\
  Android.kind (Android.determineSecurityResponse (Android.lit 7 10) tt)
  = StepUpChallenge.
Proof.
  pose proof (risk_tiers_half_open 0 (Inputs.scored 0.45 []) unit
                (Android.lit 7 10) tt) as H.
  cbv zeta in H.
  destruct H as (_ & Hs & _ & _ & _ & _ & _ & _ & _ & _ & _ & Hc & _).
  split.
  - apply Hs; reflexivity.
  - apply Hc; reflexivity.
Defined.

(** C5, as the code has it.  On the server a score from 0.6 and below 0.8
    gives a step-up challenge of medium severity that expires five minutes
    after the clock reading taken when the response is determined; its method
    is the biometric one when the flags contain [device_anomaly] or
    [location_anomaly], else the one-time password when they contain
    [typing_anomaly] or [navigation_anomaly], else the biometric one.  On the
    client the same tier always gives the one-time-password challenge of
    medium severity, whatever the tick's metrics, and the response has no
    expiry field. *)
Theorem step_up_method_and_expiry :
  forall (now : Z) (m : Server.BehavioralMetrics)
         (Metrics : Type) (score : spec_float) (metrics : Metrics),
    let r := Server.riskScore m in
    let T := Server.anomalyFlags m in
    (Server.geb r 0.6 = true -> (r <? 0.8) = true ->
     exists method,
       Server.kind (Server.determineSecurityResponse now m) = StepUpChallenge /\
       Server.responds (Server.determineSecurityResponse now m)
         method Server.medium true (Some (now + 5 * 60 * 1000)%Z) /\
       (In "device_anomaly" T \/ In "location_anomaly" T ->
        method = Server.silent_faceid) /\
       (~ In "device_anomaly" T -> ~ In "location_anomaly" T ->
        In "typing_anomaly" T \/ In "navigation_anomaly" T ->
        method = Server.otp_challenge) /\
       (~ In "device_anomaly" T -> ~ In "location_anomaly" T ->
        ~ In "typing_anomaly" T -> ~ In "navigation_anomaly" T ->
        method = Server.silent_faceid)) /\
    (Android.geb score (Android.lit 6 10) = true ->
     SFltb score (Android.lit 8 10) = true ->
     Android.kind (Android.determineSecurityResponse score metrics) = StepUpChallenge /\
     Android.responds (Android.determineSecurityResponse score metrics)
       Android.OTP_CHALLENGE Android.MEDIUM true).
Proof.
  intros now m Metrics score metrics r T. split.
  - intros H1 H2. exists (Server.selectAuthenticationMethod T).
    rewrite (ServerFacts.determine_step_up now m H1 H2). fold T.
    split; [reflexivity|]. split; [eexists; reflexivity|].
    unfold Server.selectAuthenticationMethod.
    repeat split.
    + intros [H | H]; apply ServerFacts.includes_In in H; rewrite H;
        [reflexivity | now rewrite orb_true_r].
    + intros Hd Hl Hk.
      apply ServerFacts.includes_false in Hd, Hl. rewrite Hd, Hl. simpl.
      destruct Hk as [H | H]; apply ServerFacts.includes_In in H; rewrite H;
        [reflexivity | now rewrite orb_true_r].
    + intros Hd Hl Hk Hn.
      apply ServerFacts.includes_false in Hd, Hl, Hk, Hn.
      now rewrite Hd, Hl, Hk, Hn.
  - intros H1 H2.
    rewrite (AndroidFacts.client_step_up score metrics H1 H2).
    split; [reflexivity | eexists; reflexivity].
Qed.

(** C5, at 0.7 with the flags [typing_anomaly] on the server, and at 0.7 on
    the client. *)
Lemma step_up_method_and_expiry_witness :
  Server.responds
    (Server.determineSecurityResponse 1000 (Inputs.scored 0.7 ["typing_anomaly"]))
    Server.otp_challenge Server.medium true (Some 301000%Z) /\
  Android.responds
    (Android.determineSecurityResponse (Android.lit 7 10) ["device_anomaly"])
    Android.OTP_CHALLENGE Android.MEDIUM true.
Proof.
  pose proof (step_up_method_and_expiry 1000 (Inputs.scored 0.7 ["typing_anomaly"])
                (list string) (Android.lit 7 10) ["device_anomaly"]) as H.
  cbv zeta in H. destruct H as (Hs & Hc). split.
  - destruct (Hs eq_refl eq_refl) as (method & _ & Hr & _ & Hotp & _).
    rewrite (Hotp ltac:(simpl; intuition discriminate)
                  ltac:(simpl; intuition discriminate)
                  ltac:(simpl; auto)) in Hr.
    exact Hr.
  - exact (proj2 (Hc eq_refl eq_refl)).
Defined.

(** C5 fails on the client: at 0.7 the challenge is the one-time password
    also when the tick carries no flag, and when it carries
    [device_anomaly], where the specification asks for the biometric method. *)
Lemma client_step_up_is_always_otp :
  Android.determineSecurityResponse (Android.lit 7 10) (@nil string)
  = Some {| Android.type := Android.OTP_CHALLENGE;
            Android.severity := Android.MEDIUM;
            Android.message := "Additional verification required.";
            Android.requiresUserAction := true |} /\
  Android.determineSecurityResponse (Android.lit 7 10) ["device_anomaly"]
  = Some {| Android.type := Android.OTP_CHALLENGE;
            Android.severity := Android.MEDIUM;
            Android.message := "Additional verification required.";
            Android.requiresUserAction := true |} /\
  Server.selectAuthenticationMethod [] = Server.silent_faceid /\
  Server.selectAuthenticationMethod ["device_anomaly"] = Server.silent_faceid.
Proof. repeat split. Qed.

(** C9, as the code has it.  On a tick whose metrics pass validation and
    are stored, the similarity service is queried exactly when the risk
    score is strictly above 0.6 (at 0.6 itself it is not); whatever the
    service answers, the call returns the response determined from the
    metrics and the alert goes out as it would have; and a failure of the
    vector store is in the log. *)
Theorem rag_queried_above_medium :
  forall (env : Server.Env) (m : Server.BehavioralMetrics) (s : Server.Service)
         (iso : string),
    Server.validateMetrics m = true ->
    Server.toISOString env (Server.timestamp m) = Some iso ->
    Server.metricsInsert env = Returned None ->
    exists s',
      Server.processBehavioralMetrics env m s
      = (Returned (Server.determineSecurityResponse (Server.now env) m), s') /\
      Server.ragQueries s'
      = (Server.ragQueries s
         ++ if Server.gtb (Server.riskScore m) 0.6
            then [Server.buildRAGQuery env m] else [])%list /\
      Server.emitted s'
      = (Server.emitted s
         ++ match Server.determineSecurityResponse (Server.now env) m,
                  Server.createAlert env with
            | Some r, Returned _ => [Server.alertFor env m r]
            | _, _ => []
            end)%list /\
      (Server.gtb (Server.riskScore m) 0.6 = true ->
       forall search err,
         Server.collection env = Some search ->
         search (Server.buildRAGQuery env m) = Threw err ->
         In Server.queryError (Server.logs s')).
Proof.
  intros env m s iso Hvalid Hiso Hins.
  unfold Server.processBehavioralMetrics, Server.try_catch, Server.bind.
  rewrite Hvalid. cbn [negb].
  unfold Server.log at 1, Server.ret at 1.
  match goal with
  | |- context [Server.storeAnonymizedMetrics env m ?s0] =>
      destruct (ServiceFacts.storeAnonymizedMetrics_stored env m s0 iso Hiso Hins)
        as (s1 & E1 & Q1 & M1 & L1)
  end.
  rewrite E1. cbn [Server.ragQueries Server.emitted] in Q1, M1.
  change Server.MEDIUM with 0.6.
  destruct (Server.gtb (Server.riskScore m) 0.6) eqn:Egt.
  - destruct (ServiceFacts.analyzeWithRAG_total env m s1)
      as (s2 & E2 & Q2 & M2 & _ & L2 & F2).
    rewrite E2.
    destruct (Server.determineSecurityResponse (Server.now env) m) as [r|].
    + destruct (ServiceFacts.sendRealTimeAlert_total env m r s2)
        as (s3 & E3 & Q3 & M3 & L3).
      rewrite E3. unfold Server.ret. eexists. split; [reflexivity|].
      rewrite Q3, Q2, Q1, M3, M2, M1. repeat split.
      intros _ search err Hc Hs. apply L3. eapply F2; eassumption.
    + unfold Server.ret. eexists. split; [reflexivity|].
      rewrite Q2, Q1, M2, M1, app_nil_r. repeat split.
      intros _ search err Hc Hs. eapply F2; eassumption.
  - unfold Server.ret at 1.
    destruct (Server.determineSecurityResponse (Server.now env) m) as [r|].
    + destruct (ServiceFacts.sendRealTimeAlert_total env m r s1)
        as (s3 & E3 & Q3 & M3 & L3).
      rewrite E3. unfold Server.ret. eexists. split; [reflexivity|].
      rewrite Q3, Q1, M3, M1, app_nil_r. repeat split. discriminate.
    + unfold Server.ret. eexists. split; [reflexivity|].
      rewrite Q1, M1, !app_nil_r. repeat split. discriminate.
Qed.

(** C9, with a vector store that throws, at a score of 0.7. *)
Lemma rag_queried_above_medium_witness :
  exists s',
    Server.processBehavioralMetrics Inputs.ragDown
      (Inputs.scored 0.7 ["typing_anomaly"]) Server.emptyService
    = (Returned (Server.determineSecurityResponse (Server.now Inputs.ragDown)
                   (Inputs.scored 0.7 ["typing_anomaly"])), s') /\
    Server.ragQueries s'
    = [Server.buildRAGQuery Inputs.ragDown (Inputs.scored 0.7 ["typing_anomaly"])] /\
    Server.emitted s'
    = [Server.alertFor Inputs.ragDown (Inputs.scored 0.7 ["typing_anomaly"])
         {| Server.type := Server.otp_challenge;
            Server.severity := Server.medium;
            Server.message := "Additional verification required for security.";
            Server.requiresUserAction := true;
            Server.expiresAt := Some 1700000300000%Z |}] /\
    In Server.queryError (Server.logs s').
Proof.
  destruct (rag_queried_above_medium Inputs.ragDown
              (Inputs.scored 0.7 ["typing_anomaly"]) Server.emptyService
              "2023-11-14T22:13:20.000Z" eq_refl eq_refl eq_refl)
    as (s' & E & Q & M & L).
  exists s'. repeat split.
  - exact E.
  - exact Q.
  - exact M.
  - exact (L eq_refl _ _ eq_refl eq_refl).
Defined.

(** C9 fails at the boundary and on a failed store: a valid tick with score
    exactly 0.6 gets its step-up response and alert while no query is sent;
    a tick with score 0.7 whose metrics row the database rejects sends none
    either, the call throws. *)
Lemma rag_not_queried_at_medium :
  Server.geb 0.6 0.6 = true /\
  fst (Server.processBehavioralMetrics Inputs.calm
         (Inputs.scored 0.6 ["typing_anomaly"]) Server.emptyService)
  = Returned (Some {| Server.type := Server.otp_challenge;
                      Server.severity := Server.medium;
                      Server.message := "Additional verification required for security.";
                      Server.requiresUserAction := true;
                      Server.expiresAt := Some 1700000300000%Z |}) /\
  Server.ragQueries
    (snd (Server.processBehavioralMetrics Inputs.calm
            (Inputs.scored 0.6 ["typing_anomaly"]) Server.emptyService)) = [] /\
  List.length
    (Server.emitted
       (snd (Server.processBehavioralMetrics Inputs.calm
               (Inputs.scored 0.6 ["typing_anomaly"]) Server.emptyService))) = 1%nat /\
  Server.geb 0.7 0.6 = true /\
  fst (Server.processBehavioralMetrics Inputs.databaseDown
         (Inputs.scored 0.7 ["typing_anomaly"]) Server.emptyService)
  = Threw "connection refused" /\
  Server.ragQueries
    (snd (Server.processBehavioralMetrics Inputs.databaseDown
            (Inputs.scored 0.7 ["typing_anomaly"]) Server.emptyService)) = [].
Proof. repeat split. Qed.

(** C2, as the code has it.  The service keeps no session state: in the
    ticks of one session, a tick that comes after a terminal response and
    returns a response returns the one determined from its own metrics, so
    it is terminal exactly when its own score is at least 0.8 and is
    otherwise nothing, a silent challenge or a step-up by its tier. *)
Theorem later_tick_follows_its_own_score :
  forall (ticks : list (Server.Env * Server.BehavioralMetrics)) (s : Server.Service)
         (j i : nat) (prev out : option Server.SecurityResponse)
         (env : Server.Env) (m : Server.BehavioralMetrics),
    let responses := fst (Server.runSession ticks s) in
    (j < i)%nat ->
    nth_error responses j = Some (Returned prev) ->
    terminal (Server.kind prev) = true ->
    nth_error ticks i = Some (env, m) ->
    nth_error responses i = Some (Returned out) ->
    out = Server.determineSecurityResponse (Server.now env) m /\
    terminal (Server.kind out) = Server.geb (Server.riskScore m) 0.8.
Proof.
  intros ticks s j i prev out env m responses _ _ _ Ht Hr.
  destruct (ServiceFacts.runSession_nth ticks s i env m _ Ht Hr) as (si & E).
  assert (out = Server.determineSecurityResponse (Server.now env) m) as ->.
  { destruct (Server.processBehavioralMetrics env m si) as [o s'] eqn:Ep.
    cbn in E. subst o. eapply ServiceFacts.process_returned; eassumption. }
  split; [reflexivity | apply ServerFacts.terminal_iff_high].
Qed.

(** C2, on a session of two ticks: 0.9, then 0.85. *)
Lemma later_tick_follows_its_own_score_witness :
  Inputs.terminated
  = Server.determineSecurityResponse (Server.now Inputs.calm) (Inputs.scored 0.85 []) /\
  terminal (Server.kind Inputs.terminated)
  = Server.geb (Server.riskScore (Inputs.scored 0.85 [])) 0.8.
Proof.
  exact (later_tick_follows_its_own_score
           [(Inputs.calm, Inputs.scored 0.9 []); (Inputs.calm, Inputs.scored 0.85 [])]
           Server.emptyService 0 1 Inputs.terminated Inputs.terminated
           Inputs.calm (Inputs.scored 0.85 [])
           Nat.lt_0_1 eq_refl eq_refl eq_refl eq_refl).
Defined.

(** C2 fails: in one session a tick with score 0.9 ends the session and the
    next tick, with score 0.1, gets no response at all. *)
Lemma terminal_then_none :
  fst (Server.runSession
         [(Inputs.calm, Inputs.scored 0.9 []); (Inputs.calm, Inputs.scored 0.1 [])]
         Server.emptyService)
  = [Returned Inputs.terminated; Returned None] /\
  Server.kind Inputs.terminated = SessionTerminate /\
  Server.kind None = NoResponse.
Proof. repeat split. Qed.

(** C6, as the code has it.  A tick with risk score 0.82 and the flags
    [typing_anomaly] ends the session: the response is the session
    termination of high severity, it requires user action and carries no
    expiry, on the server and on the client alike (0.82 lies from 0.8 and
    below 0.95).  The one-time-password step-up of medium severity that
    expires 300 seconds after the clock reading is the server's response to
    these flags at scores from 0.6 and below 0.8. *)
Theorem score_082_ends_the_session :
  forall (now : Z) (m : Server.BehavioralMetrics) (Metrics : Type) (metrics : Metrics),
    Server.anomalyFlags m = ["typing_anomaly"] ->
    (Server.riskScore m = 0.82 ->
     Server.kind (Server.determineSecurityResponse now m) = SessionTerminate /\
     Server.responds (Server.determineSecurityResponse now m)
       Server.session_termination Server.high true None) /\
    (Android.kind (Android.determineSecurityResponse (Android.lit 82 100) metrics)
     = SessionTerminate /\
     Android.responds (Android.determineSecurityResponse (Android.lit 82 100) metrics)
       Android.SESSION_TERMINATION Android.HIGH true) /\
    (Server.geb (Server.riskScore m) 0.6 = true -> (Server.riskScore m <? 0.8) = true ->
     Server.kind (Server.determineSecurityResponse now m) = StepUpChallenge /\
     Server.responds (Server.determineSecurityResponse now m)
       Server.otp_challenge Server.medium true (Some (now + 300 * 1000)%Z)).
Proof.
  intros now m Metrics metrics Hflags. repeat split.
  - rewrite (ServerFacts.determine_terminate now m); try rewrite H; reflexivity.
  - rewrite (ServerFacts.determine_terminate now m); try rewrite H;
      [eexists|..]; reflexivity.
  - eexists; reflexivity.
  - rewrite (ServerFacts.determine_step_up now m); auto.
  - rewrite (ServerFacts.determine_step_up now m); auto.
    rewrite Hflags. eexists; reflexivity.
Qed.

(** C6, at 0.82, and at 0.62 for the step-up. *)
Lemma score_082_ends_the_session_witness :
  Server.responds
    (Server.determineSecurityResponse 5000 (Inputs.scored 0.82 ["typing_anomaly"]))
    Server.session_termination Server.high true None /\
  Server.responds
    (Server.determineSecurityResponse 5000 (Inputs.scored 0.62 ["typing_anomaly"]))
    Server.otp_challenge Server.medium true (Some 305000%Z).
Proof.
  split.
  - exact (proj2 (proj1 (score_082_ends_the_session 5000
                           (Inputs.scored 0.82 ["typing_anomaly"]) unit tt eq_refl)
                   eq_refl)).
  - exact (proj2 (proj2 (proj2 (score_082_ends_the_session 5000
                                  (Inputs.scored 0.62 ["typing_anomaly"]) unit tt eq_refl))
                   eq_refl eq_refl)).
Defined.

(** C6 fails: at 0.82 with [typing_anomaly] the server answers with the
    session termination, high, without expiry, and so does the client. *)
Lemma score_082_is_not_a_step_up :
  Server.determineSecurityResponse 5000 (Inputs.scored 0.82 ["typing_anomaly"])
  = Inputs.terminated /\
  Server.kind Inputs.terminated = SessionTerminate /\
  Android.determineSecurityResponse (Android.lit 82 100) ["typing_anomaly"]
  = Some {| Android.type := Android.SESSION_TERMINATION;
            Android.severity := Android.HIGH;
            Android.message := "High risk activity detected. Session terminated.";
            Android.requiresUserAction := true |}.
Proof. repeat split. Qed.

(** C10.  Two records with the same risk score and the same set of anomaly
    flags get responses of the same type, severity, message and user-action
    flag, whatever their other fields and whenever they are processed. *)
Theorem decision_depends_on_score_and_flags :
  forall (now now' : Z) (m m' : Server.BehavioralMetrics),
    Server.riskScore m = Server.riskScore m' ->
    (forall tag, In tag (Server.anomalyFlags m) <-> In tag (Server.anomalyFlags m')) ->
    Server.decision (Server.determineSecurityResponse now m)
    = Server.decision (Server.determineSecurityResponse now' m').
Proof.
  intros now now' m m' Hr Hf.
  unfold Server.determineSecurityResponse. rewrite <- Hr.
  repeat match goal with
         | |- context [if ?b then _ else _] => destruct b
         end; try reflexivity.
  unfold Server.decision. cbn.
  now rewrite (ServerFacts.select_ext _ _ Hf).
Qed.

(** C10, on two records that share only the score 0.7 and the flags. *)
Lemma decision_depends_on_score_and_flags_witness :
  Server.decision
    (Server.determineSecurityResponse 1000
       (Inputs.scored 0.7 ["navigation_anomaly"]))
  = Server.decision
      (Server.determineSecurityResponse 999000
         (Inputs.scoredElsewhere 0.7 ["navigation_anomaly"])).
Proof.
  exact (decision_depends_on_score_and_flags 1000 999000
           (Inputs.scored 0.7 ["navigation_anomaly"])
           (Inputs.scoredElsewhere 0.7 ["navigation_anomaly"])
           eq_refl (fun tag => conj (fun H => H) (fun H => H))).
Defined.

End ResponseEngine.

(** ** The collector's buffers *)

Module CollectorFacts.

Import Collector.

Ltac long_bounds :=
  change (2 ^ 63) with 9223372036854775808 in *;
  change (2 ^ 64) with 18446744073709551616 in *.

Lemma wrapLong_small z : - 2 ^ 63 <= z < 2 ^ 63 -> wrapLong z = z.
Proof.
  intros H. unfold wrapLong. long_bounds. rewrite Z.mod_small; lia.
Qed.



Section Buffers.

Context {F : Type} {ops : FloatOps F}.


Lemma clearOldData_within_caps now (c : Collector F) :
  within_caps c -> within_caps (clearOldData now c).
Proof.
  unfold within_caps, clearOldData, withBuffers.
  cbn [touchEvents typingEvents sensorData navigationEvents]. intros (Ht & Hk & Hs).
  repeat split; (etransitivity; [apply filter_length_le | assumption]).
Qed.

(** The body of the tick ends in one of two ways. *)
Lemma processCollectedData_cases env (c : Collector F) :
  (exists m, processCollectedData env c = (Returned m, clearOldData env.(purgeTime) c))
  \/ (exists err, processCollectedData env c = (Threw err, c)).
Proof.
  unfold processCollectedData.
  destruct (extractDeviceOrientation c) as [orientation|]; [| right; eauto].
  destruct (dataCallback c) as [callback|].
  - match goal with |- context [callback ?m] => destruct (callback m) as [[]|err] end;
      [left | right]; eauto.
  - left; eauto.
Qed.




Lemma removeAt0_length {A} (l rest : list A) :
  removeAt0 l = Some rest -> List.length l = S (List.length rest).
Proof. destruct l; intros H; [discriminate | injection H as <-; reflexivity]. Qed.

Lemma serve_within_caps (c : Collector F) call :
  within_caps c -> within_caps (serve c call).
Proof.
  intros Hc. pose proof Hc as (Ht & Hk & Hs).
  assert (Hclear : forall c' : Collector F, within_caps (clearCollectedData c')).
  { intros c'. unfold within_caps, clearCollectedData. cbn.
    unfold MAX_TOUCH_EVENTS, MAX_TYPING_EVENTS, MAX_SENSOR_DATA. lia. }
  assert (Hprocess : forall env (c' : Collector F), within_caps c' ->
                                    within_caps (snd (processCollectedData env c'))).
  { intros env c' Hc'.
    destruct (processCollectedData_cases env c') as [(m & E) | (err & E)];
      rewrite E; cbn [snd]; [apply clearOldData_within_caps|]; assumption. }
  destruct call; cbn [serve].
  - exact Hc.
  - unfold startCollection.
    destruct (isCollecting c); [exact Hc|].
    destruct (negb (hasUserConsent env)); [exact Hc | apply Hclear].
  - unfold stopCollection. destruct (negb (isCollecting c)); [exact Hc | apply Hclear].
  - unfold tick. destruct (isCollecting c); [apply Hprocess|]; exact Hc.
  - unfold onTouchEvent.
    destruct (negb (isCollecting c) || negb (hasUserConsent env)); [exact Hc|].
    destruct (List.length (touchEvents c) <? MAX_TOUCH_EVENTS)%nat eqn:E.
    + apply Nat.ltb_lt in E. unfold within_caps. cbn.
      rewrite length_app. cbn. repeat split; lia.
    + destruct (removeAt0 (touchEvents c)) as [rest|] eqn:Er; [| exact Hc].
      apply removeAt0_length in Er. unfold within_caps. cbn.
      rewrite length_app. cbn. repeat split; lia.
  - unfold onTypingEvent.
    destruct (negb (isCollecting c) || negb (hasUserConsent env)); [exact Hc|].
    destruct (List.length (typingEvents c) <? MAX_TYPING_EVENTS)%nat eqn:E.
    + apply Nat.ltb_lt in E. unfold within_caps. cbn.
      rewrite length_app. cbn. repeat split; lia.
    + destruct (removeAt0 (typingEvents c)) as [rest|] eqn:Er; [| exact Hc].
      apply removeAt0_length in Er. unfold within_caps. cbn.
      rewrite length_app. cbn. repeat split; lia.
  - unfold onNavigationEvent.
    destruct (negb (isCollecting c) || negb (hasUserConsent env)); exact Hc.
  - unfold onSensorChanged.
    destruct event as [event|]; [| exact Hc].
    destruct (negb (isCollecting c)); [exact Hc|].
    match goal with
    | |- context [(MAX_SENSOR_DATA <? List.length ?added)%nat] =>
        destruct (MAX_SENSOR_DATA <? List.length added)%nat eqn:E;
        [ destruct (removeAt0 added) as [rest|] eqn:Er | ]
    end.
    + apply removeAt0_length in Er. rewrite length_app in Er. cbn in Er.
      unfold within_caps. cbn. repeat split; lia.
    + destruct (sensorData c); discriminate.
    + apply Nat.ltb_ge in E. unfold within_caps. cbn. repeat split; lia.
  - apply Hclear.
Qed.

Lemma run_within_caps calls :
  forall c : Collector F, within_caps c -> within_caps (run calls c).
Proof.
  induction calls as [| call rest IH]; intros c Hc; [exact Hc|].
  cbn [run fold_left]. apply IH, serve_within_caps, Hc.
Qed.

End Buffers.

End CollectorFacts.

(** ** The collector: extraction, retention, ingestion *)

Section CollectorClaims.

Import Collector.

(** C4.  On an empty snapshot every category's extraction returns the zero
    vector of its length: ten entries for typing, ten for touch, eight for
    the device orientation, six for navigation.  The extractors of typing,
    touch and navigation are total and their results always have these
    lengths; the orientation extractor returns (it does not throw) whenever
    there is no reading, and a vector it returns has eight entries. *)
Theorem empty_snapshot_gives_zero_vector :
  forall (F : Type) (ops : FloatOps F) (c : Collector F),
    (typingEvents c = [] -> extractTypingRhythm c = repeat fzero 10) /\
    (touchEvents c = [] -> extractTouchDynamics c = repeat fzero 10) /\
    (sensorData c = [] -> extractDeviceOrientation c = Some (repeat fzero 8)) /\
    (filter (fun it => sensorType it =? TYPE_ACCELEROMETER) (sensorData c) = [] ->
     extractDeviceOrientation c = Some (repeat fzero 8)) /\
    (navigationEvents c = [] -> extractNavigationPattern c = repeat fzero 6) /\
    List.length (extractTypingRhythm c) = 10%nat /\
    List.length (extractTouchDynamics c) = 10%nat /\
    (forall v, extractDeviceOrientation c = Some v -> List.length v = 8%nat) /\
    List.length (extractNavigationPattern c) = 6%nat.
Proof.
  intros F ops c. repeat split.
  - unfold extractTypingRhythm. now intros ->.
  - unfold extractTouchDynamics. now intros ->.
  - unfold extractDeviceOrientation. now intros ->.
  - unfold extractDeviceOrientation. now intros ->.
  - unfold extractNavigationPattern. now intros ->.
  - unfold extractTypingRhythm. destruct (typingEvents c); reflexivity.
  - unfold extractTouchDynamics. destruct (touchEvents c); reflexivity.
  - unfold extractDeviceOrientation. intros v.
    destruct (filter _ (sensorData c)) as [| d data].
    + intros [= <-]. reflexivity.
    + repeat match goal with
             | |- context [match ?o with Some _ => _ | None => _ end] => destruct o
             end; intros [= <-] || discriminate; reflexivity.
  - unfold extractNavigationPattern. destruct (navigationEvents c); reflexivity.
Qed.

(** C4, on a collector that has just been created. *)
Lemma empty_snapshot_gives_zero_vector_witness :
  extractTypingRhythm (ops := Inputs.arithmetic) (newCollector "fresh")
  = repeat (S754_zero false) 10 /\
  extractTouchDynamics (ops := Inputs.arithmetic) (newCollector "fresh")
  = repeat (S754_zero false) 10 /\
  extractDeviceOrientation (ops := Inputs.arithmetic) (newCollector "fresh")
  = Some (repeat (S754_zero false) 8) /\
  extractNavigationPattern (ops := Inputs.arithmetic) (newCollector "fresh")
  = repeat (S754_zero false) 6.
Proof.
  destruct (empty_snapshot_gives_zero_vector spec_float Inputs.arithmetic
              (newCollector "fresh")) as (Hk & Ht & Hs & _ & Hn & _).
  exact (conj (Hk eq_refl) (conj (Ht eq_refl) (conj (Hs eq_refl) (Hn eq_refl)))).
Defined.



(** C8 at its failing input.  With the session collecting and the consent
    withdrawn, the sensor callback records the reading: the sensor buffer,
    empty before the call, holds one sample after it. *)
Theorem sensor_reading_recorded_without_consent :
  hasUserConsent (Inputs.withdrawn 10) = false /\
  isCollecting Inputs.collecting = true /\
  sensorData Inputs.collecting = [] /\
  sensorData (onSensorChanged (Inputs.withdrawn 10) (Some Inputs.flat) Inputs.collecting)
  = [ {| sensor_timestamp := 10;
         sensorType := TYPE_ACCELEROMETER;
         values := [S754_zero false; S754_zero false; S754_finite false 39 (-2)];
         accuracy := 3 |} ].
Proof. repeat split. Qed.

(** X3.  A touch, typing or navigation call made while the collector is not
    collecting or the consent is withdrawn leaves the collector as it was
    and returns; so does a sensor callback made while the collector is not
    collecting, or with no event. *)
Theorem ingestion_dropped_when_inactive_or_without_consent :
  forall (F : Type) (c : Collector F) (env : CallEnv)
         (touch : MotionEvent F) (keyCode dwellTime flightTime : Z) (pressure : F)
         (screenName action : string) (duration : Z)
         (reading : option (SensorEvent F)),
    (isCollecting c = false \/ hasUserConsent env = false ->
     onTouchEvent env touch c = (false, c) /\
     onTypingEvent env keyCode dwellTime flightTime pressure c = c /\
     onNavigationEvent env screenName action duration c = c) /\
    (isCollecting c = false \/ reading = None ->
     onSensorChanged env reading c = c).
Proof.
  intros F c env touch keyCode dwellTime flightTime pressure
         screenName action duration reading.
  split.
  - intros H.
    assert (E : negb (isCollecting c) || negb (hasUserConsent env) = true).
    { destruct H as [-> | ->]; [reflexivity | apply orb_true_r]. }
    unfold onTouchEvent, onTypingEvent, onNavigationEvent. now rewrite E.
  - intros [H | ->]; [| reflexivity].
    unfold onSensorChanged. rewrite H. now destruct reading.
Qed.

(** X3, on a collector that was never started, and on a session whose
    consent was withdrawn. *)
Lemma ingestion_dropped_when_inactive_or_without_consent_witness :
  onSensorChanged (Inputs.consenting 10) (Some Inputs.flat) (newCollector "idle")
  = newCollector "idle" /\
  onTouchEvent (Inputs.withdrawn 10) Inputs.tap Inputs.collecting
  = (false, Inputs.collecting).
Proof.
  split.
  - exact (proj2 (ingestion_dropped_when_inactive_or_without_consent
                    spec_float (newCollector "idle") (Inputs.consenting 10)
                    Inputs.tap 0 0 0 (S754_zero false) "" "" 0 (Some Inputs.flat))
             (or_introl eq_refl)).
  - exact (proj1 (proj1 (ingestion_dropped_when_inactive_or_without_consent
                           spec_float Inputs.collecting (Inputs.withdrawn 10)
                           Inputs.tap 0 0 0 (S754_zero false) "" "" 0 None)
                    (or_intror eq_refl))).
Defined.

(** C3 at its failing input.  A session that receives 1001 navigation
    events holds all 1001 of them: more than any cap of the collector, and
    the first one received is still the first in the buffer. *)
Theorem navigation_buffer_exceeds_every_cap :
  List.length
    (navigationEvents
       (run (ops := Inputs.arithmetic)
          (OnNavigationEvent (Inputs.consenting 100) "login" "open" 0
           :: repeat (OnNavigationEvent (Inputs.consenting 200) "home" "open" 0) 1000)
          Inputs.collecting))
  = 1001%nat /\
  hd_error
    (navigationEvents
       (run (ops := Inputs.arithmetic)
          (OnNavigationEvent (Inputs.consenting 100) "login" "open" 0
           :: repeat (OnNavigationEvent (Inputs.consenting 200) "home" "open" 0) 1000)
          Inputs.collecting))
  = Some {| nav_timestamp := 100; screenName := "login";
            nav_action := "open"; nav_duration := 0 |} /\
  (MAX_TYPING_EVENTS < 1001 /\ MAX_TOUCH_EVENTS < 1001 /\ MAX_SENSOR_DATA < 1001)%nat.
Proof.
  split; [vm_compute; reflexivity |].
  split; [vm_compute; reflexivity |].
  unfold MAX_TYPING_EVENTS, MAX_TOUCH_EVENTS, MAX_SENSOR_DATA. lia.
Qed.

(** X1.  Whatever calls a collector serves from its creation on, the touch
    buffer holds at most 100 events, the typing buffer at most 50 and the
    sensor buffer at most 1000. *)
Theorem capped_buffers_stay_within_capacity :
  forall (F : Type) (ops : FloatOps F) (calls : list (Call F)) (uuid : string),
    (List.length (touchEvents (run calls (newCollector uuid))) <= 100)%nat /\
    (List.length (typingEvents (run calls (newCollector uuid))) <= 50)%nat /\
    (List.length (sensorData (run calls (newCollector uuid))) <= 1000)%nat.
Proof.
  intros F ops calls uuid.
  apply (CollectorFacts.run_within_caps calls (newCollector uuid)).
  unfold within_caps. cbn. repeat split; apply Nat.le_0_l.
Qed.

(** X2.  An accepted insertion into a full touch, typing or sensor buffer
    removes the oldest entry and puts the new event last; below the cap it
    only puts the new event last.  (The sensor callback appends first and
    removes after; the buffer it leaves is the same.) *)
Theorem full_buffer_evicts_oldest :
  forall (F : Type) (c : Collector F) (env : CallEnv)
         (touch : MotionEvent F) (keyCode dwellTime flightTime : Z) (pressure : F)
         (reading : SensorEvent F),
    isCollecting c = true ->
    hasUserConsent env = true ->
    let touchEvent :=
      {| touch_timestamp := currentTimeMillis env;
         x := event_x touch; y := event_y touch;
         touch_pressure := event_pressure touch; size := event_size touch;
         touch_duration := wrapLong (eventTime touch - downTime touch);
         touch_action := event_action touch |} in
    let typingEvent :=
      {| typing_timestamp := currentTimeMillis env;
         keyCode := keyCode; dwellTime := dwellTime; flightTime := flightTime;
         typing_pressure := pressure |} in
    let sample :=
      {| sensor_timestamp := currentTimeMillis env;
         sensorType := event_sensor_type reading;
         values := event_values reading;
         accuracy := event_accuracy reading |} in
    touchEvents (snd (onTouchEvent env touch c))
    = (if (List.length (touchEvents c) <? 100)%nat
       then touchEvents c ++ [touchEvent]
       else tl (touchEvents c) ++ [touchEvent])%list /\
    typingEvents (onTypingEvent env keyCode dwellTime flightTime pressure c)
    = (if (List.length (typingEvents c) <? 50)%nat
       then typingEvents c ++ [typingEvent]
       else tl (typingEvents c) ++ [typingEvent])%list /\
    sensorData (onSensorChanged env (Some reading) c)
    = (if (List.length (sensorData c) <? 1000)%nat
       then sensorData c ++ [sample]
       else tl (sensorData c) ++ [sample])%list.
Proof.
  intros F c env touch keyCode dwellTime flightTime pressure reading
         Hc Hconsent touchEvent typingEvent sample.
  unfold onTouchEvent, onTypingEvent, onSensorChanged.
  rewrite Hc, Hconsent. cbn [negb orb].
  fold touchEvent typingEvent sample.
  unfold MAX_TOUCH_EVENTS, MAX_TYPING_EVENTS, MAX_SENSOR_DATA in *.
  repeat split.
  - destruct (List.length (touchEvents c) <? 100)%nat eqn:E; [reflexivity|].
    apply Nat.ltb_ge in E.
    destruct (touchEvents c) as [| old rest]; [cbn in E; lia | reflexivity].
  - destruct (List.length (typingEvents c) <? 50)%nat eqn:E; [reflexivity|].
    apply Nat.ltb_ge in E.
    destruct (typingEvents c) as [| old rest]; [cbn in E; lia | reflexivity].
  - rewrite length_app. cbn [List.length].
    destruct (List.length (sensorData c) <? 1000)%nat eqn:E.
    + apply Nat.ltb_lt in E.
      replace (1000 <? List.length (sensorData c) + 1)%nat with false
        by (symmetry; apply Nat.ltb_ge; lia).
      reflexivity.
    + apply Nat.ltb_ge in E.
      replace (1000 <? List.length (sensorData c) + 1)%nat with true
        by (symmetry; apply Nat.ltb_lt; lia).
      destruct (sensorData c) as [| old rest]; [cbn in E; lia | reflexivity].
Qed.

(** X2, on a session whose touch buffer is full, the oldest touch stamped 1
    and the other 99 stamped 2: the touch at 5080 goes last and the one
    stamped 1 is gone. *)
Lemma full_buffer_evicts_oldest_witness :
  List.length (touchEvents Inputs.fullOfTouches) = 100%nat /\
  map touch_timestamp (touchEvents Inputs.fullOfTouches) = 1 :: repeat 2 99 /\
  map touch_timestamp
    (touchEvents (snd (onTouchEvent (Inputs.consenting 5080) Inputs.tap
                         Inputs.fullOfTouches)))
  = (repeat 2 99 ++ [5080])%list.
Proof.
  pose proof (full_buffer_evicts_oldest spec_float Inputs.fullOfTouches
                (Inputs.consenting 5080) Inputs.tap 0 0 0 (S754_zero false)
                Inputs.flat eq_refl eq_refl) as H.
  cbv zeta in H. destruct H as (Ht & _).
  split; [reflexivity | split; [reflexivity|]].
  rewrite Ht. reflexivity.
Defined.

(** X4.  Starting a session on an idle collector with consent returns,
    sets the collecting flag and empties the four buffers; without consent
    it throws and changes nothing; on a collector that is already
    collecting it changes nothing.  Stopping a session clears the flag and
    empties the four buffers; on an idle collector it changes nothing. *)
Theorem session_start_and_stop :
  forall (F : Type) (ops : FloatOps F) (c : Collector F) (env : CallEnv)
         (uuid : string) (last : TickEnv),
    let started := snd (startCollection env uuid c) in
    let stopped := stopCollection last c in
    let emptied (c' : Collector F) :=
      touchEvents c' = [] /\ typingEvents c' = [] /\
      sensorData c' = [] /\ navigationEvents c' = [] in
    (isCollecting c = false -> hasUserConsent env = true ->
     fst (startCollection env uuid c) = Returned tt /\
     isCollecting started = true /\ sessionId started = uuid /\ emptied started) /\
    (isCollecting c = false -> hasUserConsent env = false ->
     returned (fst (startCollection env uuid c)) = false /\ started = c) /\
    (isCollecting c = true ->
     startCollection env uuid c = (Returned tt, c) /\
     isCollecting stopped = false /\ emptied stopped) /\
    (isCollecting c = false -> stopped = c).
Proof.
  intros F ops c env uuid last started stopped emptied.
  subst started stopped emptied. unfold startCollection, stopCollection.
  repeat split; intros;
    repeat match goal with
           | H : isCollecting c = _ |- _ => rewrite H; clear H
           | H : hasUserConsent env = _ |- _ => rewrite H; clear H
           end; cbn [negb fst snd]; try reflexivity.
  destruct (CollectorFacts.processCollectedData_cases last (withCollecting c false))
    as [(m & E) | (err & E)]; rewrite E; reflexivity.
Qed.

(** X4, on a collector that was never started. *)
Lemma session_start_and_stop_witness :
  isCollecting Inputs.collecting = true /\
  sessionId Inputs.collecting = "3f2c9a52-session" /\
  stopCollection (ops := Inputs.arithmetic) Inputs.atOneMinute
    (newCollector "initial") = newCollector "initial".
Proof.
  pose proof (session_start_and_stop spec_float Inputs.arithmetic
                (newCollector "initial") (Inputs.consenting 0)
                "3f2c9a52-session" Inputs.atOneMinute) as H.
  cbv zeta in H. destruct H as (Hstart & _ & _ & Hidle).
  destruct (Hstart eq_refl eq_refl) as (_ & Hflag & Hid & _).
  exact (conj Hflag (conj Hid (Hidle eq_refl))).
Defined.

End CollectorClaims.

(** ** More on comparisons *)

Module OrderFacts.

Import IEEE IEEEFacts.

Lemma SFgtb_thr x m e : SFltb (thr m e) x = true <-> above x m e.
Proof.
  unfold SFltb, SFcompare, thr, above.
  destruct x as [s|s| |s m' e']; try destruct s; try thr_cases e e' m m'; bool_prop.
Qed.

Lemma SFleb_thr x m e : SFleb x (thr m e) = true <-> at_most x m e.
Proof.
  unfold SFleb, SFcompare, thr, at_most.
  destruct x as [s|s| |s m' e']; try destruct s; try thr_cases e' e m' m; bool_prop.
Qed.

Lemma SFgtb_thr_false x m e : SFltb (thr m e) x = false -> ~ above x m e.
Proof. intros H B. apply SFgtb_thr in B. congruence. Qed.

Lemma SFleb_thr_false x m e : SFleb x (thr m e) = false -> ~ at_most x m e.
Proof. intros H B. apply SFleb_thr in B. congruence. Qed.

(** Only not-a-number differs from itself. *)
Lemma SFeqb_refl x : SFeqb x x = negb (match x with S754_nan => true | _ => false end).
Proof.
  unfold SFeqb, SFcompare.
  destruct x as [s|s| |s m e]; try destruct s; try reflexivity;
    rewrite Z.compare_refl;
    change (PosDef.Pos.compare_cont Eq m m) with (Pos.compare m m);
    rewrite Pos.compare_refl; reflexivity.
Qed.

(** Equality with a threshold, read off the representation. *)
Lemma SFeqb_thr x m e : SFeqb x (thr m e) = true <-> exactly x m e.
Proof.
  unfold SFeqb, SFcompare, thr, exactly.
  destruct x as [s|s| |s m' e']; try destruct s;
    try thr_cases e' e m' m; bool_prop; try (subst; tauto).
  all: try (split; [congruence | intros [? ?]; try lia; congruence]).
Qed.

Lemma SFeqb_thr_false x m e : SFeqb x (thr m e) = false -> ~ exactly x m e.
Proof. intros H B. apply SFeqb_thr in B. congruence. Qed.

Ltac order_props :=
  repeat match goal with
  | H : SFltb (thr _ _) _ = true |- _ => apply SFgtb_thr in H
  | H : SFltb (thr _ _) _ = false |- _ => apply SFgtb_thr_false in H
  | H : SFleb _ (thr _ _) = true |- _ => apply SFleb_thr in H
  | H : SFleb _ (thr _ _) = false |- _ => apply SFleb_thr_false in H
  | H : SFltb _ (thr _ _) = true |- _ => apply SFltb_thr in H
  | H : SFltb _ (thr _ _) = false |- _ => apply SFltb_thr_false in H
  | H : SFgeb _ (thr _ _) = true |- _ => apply SFgeb_thr in H
  | H : SFgeb _ (thr _ _) = false |- _ => apply SFgeb_thr_false in H
  | H : SFleb (thr _ _) _ = true |- _ => apply (SFgeb_thr _ _ _) in H
  | H : SFleb (thr _ _) _ = false |- _ => apply (SFgeb_thr_false _ _ _) in H
  end.

Ltac order_solve x :=
  order_props;
  destruct x as [[]|[]| |[] ? ?]; unfold below, at_least, above, at_most in *;
  try reflexivity; try discriminate; try tauto; try lia.

Ltac eqb_props :=
  repeat match goal with
         | H : SFeqb _ (thr _ _) = true |- _ => apply SFeqb_thr in H
         | H : SFeqb _ (thr _ _) = false |- _ => apply SFeqb_thr_false in H
         end.

Ltac exact_solve x :=
  eqb_props; order_props;
  destruct x as [[]|[]| |[] ? ?];
  unfold below, at_least, above, at_most, exactly in *;
  try reflexivity; try discriminate; try tauto; try lia.

End OrderFacts.


(** ** The server beyond the response tiers *)

Module ScoreFacts.

Import IEEE IEEEFacts OrderFacts Server.

Local Open Scope float_scope.

Lemma zero_repr : Prim2SF 0 = S754_zero false.
Proof. reflexivity. Qed.

Lemma one_repr : Prim2SF 1 = thr 4503599627370496 (-52).
Proof. reflexivity. Qed.

Lemma leb_SF (r t : float) : (r <=? t) = SFleb (Prim2SF r) (Prim2SF t).
Proof. apply leb_spec. Qed.

Lemma eqb_SF (r t : float) : (r =? t) = SFeqb (Prim2SF r) (Prim2SF t).
Proof. apply eqb_spec. Qed.

(** A score is a number when it equals itself. *)
Lemma number_repr r :
  (r =? r) = negb (match Prim2SF r with S754_nan => true | _ => false end).
Proof. rewrite eqb_SF. apply SFeqb_refl. Qed.

(** All comparisons of a score with the thresholds, [0] and [1], on its
    representation. *)
Ltac score_repr :=
  unfold geb, gtb in *;
  rewrite ?number_repr, ?ltb_spec, ?leb_spec in *;
  change (Prim2SF 0.3) with (thr 5404319552844595 (-54)) in *;
  change (Prim2SF 0.6) with (thr 5404319552844595 (-53)) in *;
  change (Prim2SF 0.8) with (thr 7205759403792794 (-53)) in *;
  change (Prim2SF 0.95) with (thr 8556839292003942 (-53)) in *;
  change (Prim2SF 1) with (thr 4503599627370496 (-52)) in *;
  change (Prim2SF 0) with (S754_zero false) in *.

(** Comparisons with zero, read off the representation. *)
Lemma SFltb_zero x :
  SFltb x (S754_zero false) = true <->
  match x with
  | S754_infinity s | S754_finite s _ _ => s = true
  | _ => False
  end.
Proof. destruct x as [[]|[]| |[] m e]; cbn; intuition congruence. Qed.

Lemma SFleb_zero x :
  SFleb (S754_zero false) x = true <->
  match x with
  | S754_infinity s | S754_finite s _ _ => s = false
  | S754_zero _ => True
  | S754_nan => False
  end.
Proof. destruct x as [[]|[]| |[] m e]; cbn; intuition congruence. Qed.

(** What validation asks of a score: nothing of not-a-number, and of a
    number that it lies between 0 and 1. *)
Lemma in_range_or_nan r :
  ((r <? 0) || gtb r 1) = false <->
  ((r =? r) = false \/ ((0 <=? r) = true /\ (r <=? 1) = true)).
Proof.
  rewrite orb_false_iff. score_repr.
  set (x := Prim2SF r). clearbody x.
  pose proof (SFltb_zero x) as Hlt. pose proof (SFleb_zero x) as Hle.
  pose proof (SFgtb_thr x 4503599627370496 (-52)) as Hgt.
  pose proof (SFleb_thr x 4503599627370496 (-52)) as Hle1.
  destruct (SFltb x (S754_zero false)), (SFleb (S754_zero false) x),
    (SFltb (thr 4503599627370496 (-52)) x), (SFleb x (thr 4503599627370496 (-52)));
    destruct x as [[]|[]| |[] m e]; unfold above, at_most in *; cbn [negb];
    intuition (try discriminate; try congruence; try lia).
Qed.

(** [>=] is [>] or [=], and [<=] is [<] or [=], at the two thresholds the
    statistics use. *)
Lemma geb_gtb_eqb r :
  Server.geb r Server.MEDIUM = Server.gtb r Server.MEDIUM || (r =? Server.MEDIUM) /\
  Server.geb r Server.HIGH = Server.gtb r Server.HIGH || (r =? Server.HIGH) /\
  (r <=? Server.HIGH) = (r <? Server.HIGH) || (r =? Server.HIGH).
Proof.
  unfold Server.MEDIUM, Server.HIGH.
  rewrite !eqb_SF. score_repr.
  set (x := Prim2SF r). clearbody x.
  repeat split.
  - destruct (SFleb (thr 5404319552844595 (-53)) x) eqn:A,
      (SFltb (thr 5404319552844595 (-53)) x) eqn:B,
      (SFeqb x (thr 5404319552844595 (-53))) eqn:C; try reflexivity; exfalso;
      exact_solve x.
  - destruct (SFleb (thr 7205759403792794 (-53)) x) eqn:A,
      (SFltb (thr 7205759403792794 (-53)) x) eqn:B,
      (SFeqb x (thr 7205759403792794 (-53))) eqn:C; try reflexivity; exfalso;
      exact_solve x.
  - destruct (SFleb x (thr 7205759403792794 (-53))) eqn:A,
      (SFltb x (thr 7205759403792794 (-53))) eqn:B,
      (SFeqb x (thr 7205759403792794 (-53))) eqn:C; try reflexivity; exfalso;
      exact_solve x.
Qed.

(** A score equal to a threshold has the threshold's representation. *)
Lemma eqb_exact r t m e :
  Prim2SF t = thr m e -> (r =? t) = true -> Prim2SF r = thr m e.
Proof.
  intros Ht E. rewrite eqb_SF, Ht in E. apply SFeqb_thr in E.
  destruct (Prim2SF r) as [[]|[]| |[] m' e']; try contradiction.
  destruct E as [-> E]. injection E as ->. reflexivity.
Qed.

(** The step-up challenge is the answer exactly from [MEDIUM] up to, and
    not including, [HIGH]. *)
Lemma step_up_iff now m :
  Server.kind (Server.determineSecurityResponse now m) = StepUpChallenge <->
  (Server.geb (Server.riskScore m) Server.MEDIUM = true /\
   (Server.riskScore m <? Server.HIGH) = true).
Proof.
  unfold Server.determineSecurityResponse.
  destruct (Server.geb (Server.riskScore m) Server.MEDIUM) eqn:EM;
    destruct (Server.riskScore m <? Server.HIGH) eqn:EH;
    repeat match goal with
           | |- context [if ?b then _ else _] => let E := fresh "E" in destruct b eqn:E
           end; cbn [Server.kind Server.severity];
    try (split; [intros; (discriminate || (split; reflexivity)) | intros [? ?]; (discriminate || reflexivity)]);
    exfalso; ServerFacts.to_repr; IEEEFacts.thr_solve (Prim2SF (Server.riskScore m)).
Qed.

End ScoreFacts.


Module StatisticsFacts.

Import Server.

Local Open Scope float_scope.

(** The three classes [aggregateStatistics] counts. *)
Lemma one_class r :
  (Nat.b2n (gtb r HIGH)
   + Nat.b2n (gtb r MEDIUM && (r <=? HIGH)%float)
   + Nat.b2n (negb (gtb r MEDIUM)) = 1)%nat.
Proof.
  destruct (gtb r HIGH) eqn:Eh, (gtb r MEDIUM) eqn:Em, (r <=? HIGH) eqn:El;
    try reflexivity; exfalso;
    unfold HIGH, MEDIUM in *; ScoreFacts.score_repr;
    OrderFacts.order_solve (Prim2SF r).
Qed.

Lemma filter_length_b2n {A} (f : A -> bool) (l : list A) :
  List.length (filter f l) = fold_right (fun a n => (Nat.b2n (f a) + n)%nat) 0%nat l.
Proof.
  induction l as [| a l IH]; [reflexivity|].
  cbn. destruct (f a); cbn; now rewrite IH.
Qed.

Lemma classes_partition (data : list AnalyticsRow) :
  (List.length (filter (fun d => gtb (risk_score d) HIGH) data)
   + List.length (filter (fun d => gtb (risk_score d) MEDIUM
                                   && (risk_score d <=? HIGH)%float) data)
   + List.length (filter (fun d => negb (gtb (risk_score d) MEDIUM)) data)
   = List.length data)%nat.
Proof.
  rewrite !filter_length_b2n.
  induction data as [| d data IH]; [reflexivity|].
  cbn [fold_right List.length]. pose proof (one_class (risk_score d)). lia.
Qed.

Lemma tallyOf_tallyFlag_same flag acc :
  tallyOf (tallyFlag flag acc) flag = after 1 flag (tallyOf acc flag).
Proof.
  induction acc as [| [key v] rest IH]; cbn [tallyFlag tallyOf after].
  - destruct (inherited flag); [destruct (String.eqb flag "__proto__")|];
      cbn [tallyOf]; rewrite ?String.eqb_refl; reflexivity.
  - destruct (String.eqb flag key) eqn:E; cbn [tallyOf]; rewrite E.
    + destruct v; reflexivity.
    + exact IH.
Qed.

Lemma tallyOf_tallyFlag_other flag other acc :
  flag <> other -> tallyOf (tallyFlag other acc) flag = tallyOf acc flag.
Proof.
  intros Hne.
  assert (E : String.eqb flag other = false) by now apply String.eqb_neq.
  induction acc as [| [key v] rest IH]; cbn [tallyFlag tallyOf].
  - destruct (inherited other); [destruct (String.eqb other "__proto__")|];
      cbn [tallyOf]; rewrite ?E; reflexivity.
  - destruct (String.eqb other key) eqn:Ek; cbn [tallyOf].
    + apply String.eqb_eq in Ek. subst key. now rewrite E.
    + destruct (String.eqb flag key); [reflexivity | exact IH].
Qed.

Lemma after_after n flag held :
  after n flag (after 1 flag held) = after (S n) flag held.
Proof.
  unfold after.
  destruct held as [[k|]|]; destruct n; try reflexivity.
  - f_equal. f_equal. lia.
  - destruct (inherited flag) eqn:Ei;
      [destruct (String.eqb flag "__proto__") eqn:Ep|]; rewrite ?Ei, ?Ep;
      reflexivity.
Qed.

Lemma tallyOf_fold flags : forall acc flag,
  tallyOf (fold_left (fun acc f => tallyFlag f acc) flags acc) flag
  = after (count_occ string_dec flags flag) flag (tallyOf acc flag).
Proof.
  induction flags as [| f flags IH]; intros acc flag; cbn [fold_left count_occ].
  - reflexivity.
  - rewrite IH. destruct (string_dec f flag) as [-> | Hne].
    + rewrite tallyOf_tallyFlag_same. apply after_after.
    + rewrite tallyOf_tallyFlag_other by congruence. reflexivity.
Qed.

Lemma tally_rows data : forall acc,
  fold_left (fun acc d => fold_left (fun acc f => tallyFlag f acc) (anomaly_flags d) acc)
            data acc
  = fold_left (fun acc f => tallyFlag f acc) (List.concat (map anomaly_flags data)) acc.
Proof.
  induction data as [| d data IH]; intros acc; cbn; [reflexivity|].
  now rewrite fold_left_app, IH.
Qed.

End StatisticsFacts.


(** ** Everything one call leaves behind *)

Module EffectFacts.

Import Server.

Ltac fields :=
  cbn [logs behavioral_analytics ragQueries fraud_analysis alerts emitted].

Ltac settle :=
  fields; rewrite ?app_nil_r; repeat split; auto; try congruence.

Lemma storeAnonymizedMetrics_effect env m s :
  exists o s1,
    storeAnonymizedMetrics env m s = (o, s1) /\
    ragQueries s1 = ragQueries s /\
    fraud_analysis s1 = fraud_analysis s /\
    alerts s1 = alerts s /\
    emitted s1 = emitted s /\
    match o with
    | Returned _ =>
        exists iso,
          env.(toISOString) m.(timestamp) = Some iso /\
          env.(metricsInsert) = Returned None /\
          behavioral_analytics s1 = (behavioral_analytics s ++ [anonymizedRow env m iso])%list
    | Threw _ =>
        behavioral_analytics s1 = behavioral_analytics s /\
        (env.(toISOString) m.(timestamp) = None \/ env.(metricsInsert) <> Returned None)
    end.
Proof.
  unfold storeAnonymizedMetrics.
  destruct (toISOString env (timestamp m)) as [iso|] eqn:Eiso; ServiceFacts.run.
  - destruct (metricsInsert env) as [[e|]|e] eqn:Eins; ServiceFacts.run;
      do 2 eexists; (split; [reflexivity|]); fields;
      (do 4 (split; [reflexivity|])).
    + split; [reflexivity | right; congruence].
    + exists iso. repeat split.
    + split; [reflexivity | right; congruence].
  - do 2 eexists; (split; [reflexivity|]); fields.
    do 4 (split; [reflexivity|]). split; [reflexivity | now left].
Qed.

Lemma analyzeWithRAG_effect env m s :
  exists s1,
    analyzeWithRAG env m s = (Returned tt, s1) /\
    behavioral_analytics s1 = behavioral_analytics s /\
    ragQueries s1 = (ragQueries s ++ [buildRAGQuery env m])%list /\
    fraud_analysis s1 = (fraud_analysis s ++ analysisRows env m)%list /\
    alerts s1 = alerts s /\
    emitted s1 = emitted s.
Proof.
  unfold analyzeWithRAG, analysisRows. ServiceFacts.run.
  destruct (collection env) as [search|]; ServiceFacts.run.
  - destruct (embeddings env) as [[] | failure]; ServiceFacts.run;
      destruct (search (buildRAGQuery env m)) as [[| p ps] | err]; ServiceFacts.run;
      cbn [List.length Nat.ltb Nat.leb];
      try (destruct (analysisInsert env) as [[e|]|e]; ServiceFacts.run);
      eexists; (split; [reflexivity|]); settle.
  - eexists; (split; [reflexivity|]); settle.
Qed.

Lemma sendRealTimeAlert_effect env m r s :
  exists s1,
    sendRealTimeAlert env m r s = (Returned tt, s1) /\
    behavioral_analytics s1 = behavioral_analytics s /\
    ragQueries s1 = ragQueries s /\
    fraud_analysis s1 = fraud_analysis s /\
    alerts s1 = (alerts s ++ dispatched env m (Some r))%list /\
    emitted s1 = (emitted s ++ dispatched env m (Some r))%list.
Proof.
  unfold sendRealTimeAlert, dispatched. ServiceFacts.run.
  destruct (createAlert env) as [[]|err]; ServiceFacts.run;
    eexists; (split; [reflexivity|]); settle.
Qed.

(** A call ends in one of two ways, and each way fixes what it leaves. *)
Lemma process_outcomes env m s :
  (validateMetrics m = true /\
   exists iso s',
     env.(toISOString) m.(timestamp) = Some iso /\
     env.(metricsInsert) = Returned None /\
     processBehavioralMetrics env m s
     = (Returned (determineSecurityResponse env.(now) m), s') /\
     behavioral_analytics s'
     = (behavioral_analytics s ++ [anonymizedRow env m iso])%list /\
     ragQueries s'
     = (ragQueries s ++ if gtb m.(riskScore) MEDIUM then [buildRAGQuery env m] else [])%list /\
     fraud_analysis s'
     = (fraud_analysis s ++ if gtb m.(riskScore) MEDIUM then analysisRows env m else [])%list /\
     alerts s'
     = (alerts s ++ dispatched env m (determineSecurityResponse env.(now) m))%list /\
     emitted s'
     = (emitted s ++ dispatched env m (determineSecurityResponse env.(now) m))%list)
  \/
  ((validateMetrics m = false \/ env.(toISOString) m.(timestamp) = None
    \/ env.(metricsInsert) <> Returned None) /\
   exists err s',
     processBehavioralMetrics env m s = (Threw err, s') /\
     behavioral_analytics s' = behavioral_analytics s /\
     ragQueries s' = ragQueries s /\
     fraud_analysis s' = fraud_analysis s /\
     alerts s' = alerts s /\
     emitted s' = emitted s /\
     exists before, logs s' = (before ++ [processingError])%list).
Proof.
  remember (processBehavioralMetrics env m s) as result eqn:Eres.
  unfold processBehavioralMetrics, try_catch, bind in Eres.
  destruct (validateMetrics m) eqn:Hvalid; cbn [negb] in Eres.
  - unfold log at 1, ret at 1 in Eres.
    match type of Eres with
    | context [storeAnonymizedMetrics env m ?s0] =>
        destruct (storeAnonymizedMetrics_effect env m s0)
          as (o & s1 & E1 & Q1 & F1 & A1 & M1 & B1)
    end.
    rewrite E1 in Eres.
    cbn [logs behavioral_analytics ragQueries fraud_analysis alerts emitted]
      in Q1, F1, A1, M1, B1.
    destruct o as [[]|err].
    + destruct B1 as (iso & Hiso & Hins & B1). left. split; [reflexivity|].
      exists iso.
      destruct (gtb (riskScore m) MEDIUM).
      * destruct (analyzeWithRAG_effect env m s1) as (s2 & E2 & B2 & Q2 & F2 & A2 & M2).
        rewrite E2 in Eres.
        destruct (determineSecurityResponse (now env) m) as [r|].
        -- destruct (sendRealTimeAlert_effect env m r s2)
             as (s3 & E3 & B3 & Q3 & F3 & A3 & M3).
           rewrite E3 in Eres. unfold ret in Eres. subst result.
           eexists. repeat split; try reflexivity; auto; congruence.
        -- unfold ret in Eres. subst result.
           eexists. unfold dispatched. rewrite !app_nil_r.
           repeat split; try reflexivity; auto; congruence.
      * unfold ret at 1 in Eres.
        destruct (determineSecurityResponse (now env) m) as [r|].
        -- destruct (sendRealTimeAlert_effect env m r s1)
             as (s3 & E3 & B3 & Q3 & F3 & A3 & M3).
           rewrite E3 in Eres. unfold ret in Eres. subst result.
           eexists. rewrite !app_nil_r.
           repeat split; try reflexivity; auto; congruence.
        -- unfold ret in Eres. subst result.
           eexists. unfold dispatched. rewrite !app_nil_r.
           repeat split; try reflexivity; auto; congruence.
    + destruct B1 as (B1 & Hwhy). right. split; [auto|].
      unfold log, throw in Eres. subst result.
      do 2 eexists. split; [reflexivity|]. fields.
      repeat split; auto. eexists; reflexivity.
  - right. split; [auto|].
    unfold throw, log, ret in Eres. subst result.
    do 2 eexists. split; [reflexivity|]. fields.
    repeat split; auto. eexists; reflexivity.
Qed.

(** One call, for the induction over a session. *)
Lemma call_accounting env m s :
  let r := Server.processBehavioralMetrics env m s in
  List.length (Server.behavioral_analytics (snd r))
  = (List.length (Server.behavioral_analytics s)
     + Nat.b2n (returned (fst r)))%nat /\
  exists sent,
    Server.alerts (snd r) = (Server.alerts s ++ sent)%list /\
    Server.emitted (snd r) = (Server.emitted s ++ sent)%list /\
    (List.length sent
     <= Nat.b2n match fst r with Returned (Some _) => true | _ => false end)%nat.
Proof.
  cbv zeta.
  destruct (process_outcomes env m s)
    as [(_ & iso & s' & _ & _ & E & B & _ & _ & A & M)
       | (_ & err & s' & E & B & _ & _ & A & M & _)];
    rewrite E; cbn [fst snd returned Nat.b2n].
  - split; [rewrite B, length_app; reflexivity|].
    exists (Server.dispatched env m (Server.determineSecurityResponse (Server.now env) m)).
    repeat split; auto. unfold Server.dispatched.
    destruct (Server.determineSecurityResponse _ _), (Server.createAlert env);
      cbn; lia.
  - split; [rewrite B; lia|]. exists []. rewrite !app_nil_r. repeat split; auto.
Qed.

End EffectFacts.


(** ** The server: calls, sessions, levels and statistics *)

Section ServerBeyond.

Import IEEE.

Local Open Scope float_scope.

(** X5.  A call of [processBehavioralMetrics] returns exactly when the
    metrics pass validation, their timestamp is a date and the database
    wrote the anonymized row: nothing the similarity service or the alert
    service does makes it throw. *)
Theorem call_returns_iff_valid_and_stored :
  forall (env : Server.Env) (m : Server.BehavioralMetrics) (s : Server.Service),
    returned (fst (Server.processBehavioralMetrics env m s)) = true <->
    (Server.validateMetrics m = true /\
     Server.toISOString env (Server.timestamp m) <> None /\
     Server.metricsInsert env = Returned None).
Proof.
  intros env m s.
  destruct (EffectFacts.process_outcomes env m s)
    as [(Hv & iso & s' & Hiso & Hins & E & _) | (Hwhy & err & s' & E & _)];
    rewrite E; cbn [fst returned]; split.
  - intros _. repeat split; congruence.
  - reflexivity.
  - discriminate.
  - intros (Hv & Hiso & Hins). destruct Hwhy as [H | [H | H]]; congruence.
Qed.



(** X7.  A call that returns has written exactly one analytics row, the
    anonymized one of its metrics (session id, hashed user id, score, flags);
    it has stored one analysis row when the score is above 0.6, the vector
    store answered with patterns and the database wrote the row, none
    otherwise; and the alerts it emitted are the alerts it stored: one when
    the response is not null and the alert service accepted it, none
    otherwise. *)
Theorem returned_call_effects :
  forall (env : Server.Env) (m : Server.BehavioralMetrics) (s s' : Server.Service)
         (out : option Server.SecurityResponse),
    Server.processBehavioralMetrics env m s = (Returned out, s') ->
    (exists iso,
        Server.toISOString env (Server.timestamp m) = Some iso /\
        Server.behavioral_analytics s'
        = (Server.behavioral_analytics s ++ [Server.anonymizedRow env m iso])%list) /\
    Server.fraud_analysis s'
    = (Server.fraud_analysis s
       ++ if Server.gtb (Server.riskScore m) 0.6
          then Server.analysisRows env m else [])%list /\
    Server.alerts s' = (Server.alerts s ++ Server.dispatched env m out)%list /\
    Server.emitted s' = (Server.emitted s ++ Server.dispatched env m out)%list /\
    (List.length (Server.dispatched env m out) <= 1)%nat /\
    (out = None -> Server.dispatched env m out = []).
Proof.
  intros env m s s' out E.
  destruct (EffectFacts.process_outcomes env m s)
    as [(_ & iso & s1 & Hiso & _ & E1 & B & _ & F & A & M) | (_ & err1 & s1 & E1 & _)];
    rewrite E1 in E; [| discriminate].
  injection E as <- <-.
  split; [exists iso; auto|]. repeat split; auto.
  - unfold Server.dispatched.
    destruct (Server.determineSecurityResponse _ _), (Server.createAlert env);
      cbn; lia.
  - intros ->. reflexivity.
Qed.

(** X7, on a step-up at 0.7 with every collaborator answering. *)
Lemma returned_call_effects_witness :
  List.length
    (Server.behavioral_analytics
       (snd (Server.processBehavioralMetrics Inputs.calm
               (Inputs.scored 0.7 ["typing_anomaly"]) Server.emptyService))) = 1%nat /\
  Server.alerts
    (snd (Server.processBehavioralMetrics Inputs.calm
            (Inputs.scored 0.7 ["typing_anomaly"]) Server.emptyService))
  = Server.emitted
      (snd (Server.processBehavioralMetrics Inputs.calm
              (Inputs.scored 0.7 ["typing_anomaly"]) Server.emptyService)).
Proof.
  destruct (returned_call_effects Inputs.calm
              (Inputs.scored 0.7 ["typing_anomaly"]) Server.emptyService
              (snd (Server.processBehavioralMetrics Inputs.calm
                      (Inputs.scored 0.7 ["typing_anomaly"]) Server.emptyService))
              (Server.determineSecurityResponse (Server.now Inputs.calm)
                 (Inputs.scored 0.7 ["typing_anomaly"]))
              eq_refl)
    as ((iso & _ & Hb) & _ & Ha & He & _).
  split.
  - rewrite Hb. reflexivity.
  - rewrite Ha, He. reflexivity.
Defined.

(** X8.  Over the ticks of a session, whatever each of them meets: the
    analytics table grows by one row for every call that returned and by none
    for a call that threw; the alerts stored and the alerts emitted grow by
    the same alerts, at most one for every call that returned a response. *)
Theorem session_accounting :
  forall (ticks : list (Server.Env * Server.BehavioralMetrics)) (s : Server.Service),
    List.length (Server.behavioral_analytics (snd (Server.runSession ticks s)))
    = (List.length (Server.behavioral_analytics s)
       + List.length (filter returned (fst (Server.runSession ticks s))))%nat /\
    exists sent,
      Server.alerts (snd (Server.runSession ticks s)) = (Server.alerts s ++ sent)%list /\
      Server.emitted (snd (Server.runSession ticks s)) = (Server.emitted s ++ sent)%list /\
      (List.length sent
       <= List.length
            (filter (fun o => match o with Returned (Some _) => true | _ => false end)
                    (fst (Server.runSession ticks s))))%nat.
Proof.
  induction ticks as [| [env m] rest IH]; intros s; cbn [Server.runSession].
  - cbn. split; [lia|]. exists []. rewrite !app_nil_r. repeat split; auto.
  - pose proof (EffectFacts.call_accounting env m s) as H. cbv zeta in H.
    destruct (Server.processBehavioralMetrics env m s) as [r s1].
    cbn [fst snd] in H. destruct H as (B1 & sent1 & A1 & M1 & L1).
    specialize (IH s1).
    destruct (Server.runSession rest s1) as [rs s2]. cbn [fst snd] in *.
    destruct IH as (B2 & sent2 & A2 & M2 & L2).
    split.
    + rewrite B2, B1. cbn [filter].
      destruct (returned r); cbn [Nat.b2n List.length]; lia.
    + exists (sent1 ++ sent2)%list.
      rewrite A2, M2, A1, M1, <- !app_assoc, length_app.
      repeat split; auto.
      cbn [filter].
      destruct r as [[x|]|e]; cbn [Nat.b2n List.length] in *; lia.
Qed.

(** X9.  [analyzeWithRAG] never throws: with the vector store absent or
    failing, or the database refusing the row, it returns all the same.  It
    sends its one query, stores one analysis row when the store answered with
    at least one pattern and the database wrote the row, and touches neither
    the analytics rows nor the alerts. *)
Theorem similarity_analysis_never_throws :
  forall (env : Server.Env) (m : Server.BehavioralMetrics) (s : Server.Service),
    exists s',
      Server.analyzeWithRAG env m s = (Returned tt, s') /\
      Server.behavioral_analytics s' = Server.behavioral_analytics s /\
      Server.ragQueries s' = (Server.ragQueries s ++ [Server.buildRAGQuery env m])%list /\
      Server.fraud_analysis s' = (Server.fraud_analysis s ++ Server.analysisRows env m)%list /\
      (List.length (Server.analysisRows env m) <= 1)%nat /\
      Server.alerts s' = Server.alerts s /\
      Server.emitted s' = Server.emitted s.
Proof.
  intros env m s.
  destruct (EffectFacts.analyzeWithRAG_effect env m s) as (s' & E & B & Q & F & A & M).
  exists s'. repeat split; auto.
  unfold Server.analysisRows.
  destruct (Server.collection env) as [search|]; [| cbn; lia].
  destruct (search _) as [[| p ps]|]; try (cbn; lia).
  destruct (Server.analysisInsert env) as [[|]|]; cbn; lia.
Qed.

(** X10.  The level the [/analyze] route prints beside the response is the
    severity of the response the service computed from the same score, and
    it is minimal exactly when there is no response, for every score that
    is a number.  For a score that is not a number the two part: the route
    prints minimal while the service answers with the silent challenge. *)
Theorem risk_level_is_the_severity :
  forall (now : Z) (m : Server.BehavioralMetrics),
    ((Server.riskScore m =? Server.riskScore m) = true ->
     Routes.getRiskLevel (Server.riskScore m)
     = match Server.determineSecurityResponse now m with
       | Some response => Routes.severityText (Server.severity response)
       | None => "minimal"
       end) /\
    ((Server.riskScore m =? Server.riskScore m) = false ->
     Routes.getRiskLevel (Server.riskScore m) = "minimal" /\
     Server.kind (Server.determineSecurityResponse now m) = SilentChallenge).
Proof.
  intros now m.
  unfold Routes.getRiskLevel, Server.determineSecurityResponse,
    Server.LOW, Server.MEDIUM, Server.HIGH, Server.CRITICAL.
  split; intros Hnum;
    repeat match goal with
           | |- context [if ?b then _ else _] => let E := fresh "E" in destruct b eqn:E
           end;
    cbn [Routes.severityText Server.severity Server.kind];
    try (split; reflexivity); try reflexivity; exfalso;
    ScoreFacts.score_repr;
    destruct (Prim2SF (Server.riskScore m)) as [[]|[]| |[] ? ?] eqn:Ex;
    try discriminate;
    OrderFacts.order_props; unfold below, at_least, above, at_most in *;
    try tauto; try lia.
Qed.

(** X10, at 0.85 and at not-a-number. *)
Lemma risk_level_is_the_severity_witness :
  Routes.getRiskLevel 0.85 = "high" /\
  Routes.getRiskLevel nan = "minimal" /\
  Server.kind (Server.determineSecurityResponse 0 (Inputs.scored nan [])) = SilentChallenge.
Proof.
  split.
  - exact (proj1 (risk_level_is_the_severity 0 (Inputs.scored 0.85 [])) eq_refl).
  - exact (proj2 (risk_level_is_the_severity 0 (Inputs.scored nan [])) eq_refl).
Defined.

(** X11.  What [validateMetrics] accepts: a user id and a session id that
    are not empty, a timestamp that is neither zero nor not-a-number, and a
    score and a confidence that each lie between 0 and 1, or are not a
    number: a comparison with not-a-number is false, so the range test lets
    it through. *)
Theorem validation_accepts :
  forall m : Server.BehavioralMetrics,
    Server.validateMetrics m = true <->
    (Server.userId m <> ""%string /\
     Server.sessionId m <> ""%string /\
     (Server.timestamp m =? 0) = false /\
     (Server.timestamp m =? Server.timestamp m) = true /\
     ((Server.riskScore m =? Server.riskScore m) = false \/
      ((0 <=? Server.riskScore m) = true /\ (Server.riskScore m <=? 1) = true)) /\
     ((Server.confidenceLevel m =? Server.confidenceLevel m) = false \/
      ((0 <=? Server.confidenceLevel m) = true /\
       (Server.confidenceLevel m <=? 1) = true))).
Proof.
  intros m. unfold Server.validateMetrics, Server.truthy, Server.nonEmpty.
  rewrite <- !ScoreFacts.in_range_or_nan.
  destruct (Server.userId m), (Server.sessionId m);
    destruct (Server.timestamp m =? 0), (Server.timestamp m =? Server.timestamp m);
    destruct ((Server.riskScore m <? 0) || Server.gtb (Server.riskScore m) 1);
    destruct ((Server.confidenceLevel m <? 0) || Server.gtb (Server.confidenceLevel m) 1);
    cbn; intuition congruence.
Qed.

(** X12.  The three counts of [aggregateStatistics] split the rows: high
    is the rows above 0.8, medium the rows above 0.6 and at most 0.8, and
    what the subtraction leaves as low is the number of rows not above 0.6,
    those without a numeric score among them, so it is never negative. *)
Theorem statistics_counts_split_the_rows :
  forall data : list Server.AnalyticsRow,
    Server.lowRiskSessions (Server.aggregateStatistics data)
    = Z.of_nat (List.length
                  (filter (fun d => negb (Server.gtb (Server.risk_score d) Server.MEDIUM))
                          data)) /\
    (0 <= Server.lowRiskSessions (Server.aggregateStatistics data))%Z /\
    (Server.highRiskSessions (Server.aggregateStatistics data)
     + Server.mediumRiskSessions (Server.aggregateStatistics data)
     <= Server.totalSessions (Server.aggregateStatistics data))%nat.
Proof.
  intros data. pose proof (StatisticsFacts.classes_partition data) as H.
  unfold Server.aggregateStatistics.
  cbn [Server.lowRiskSessions Server.highRiskSessions Server.mediumRiskSessions
       Server.totalSessions].
  repeat split; lia.
Qed.

(** X13.  How a session is counted against how it was answered.  Away from
    the scores 0.6 and 0.8 the two agree: a row is counted high exactly when
    the response ended the session or locked the account, and medium exactly
    when the response was the step-up challenge.  At 0.8 the session is
    terminated but counted medium, and at 0.6 the step-up is issued but the
    row is counted neither high nor medium. *)
Theorem counted_class_against_response :
  forall (now : Z) (env : Server.Env) (m : Server.BehavioralMetrics) (iso : string),
    ((Server.riskScore m =? Server.MEDIUM) = false ->
     (Server.riskScore m =? Server.HIGH) = false ->
     (Server.highRiskSessions
        (Server.aggregateStatistics [Server.anonymizedRow env m iso]) = 1%nat
      <-> terminal (Server.kind (Server.determineSecurityResponse now m)) = true) /\
     (Server.mediumRiskSessions
        (Server.aggregateStatistics [Server.anonymizedRow env m iso]) = 1%nat
      <-> Server.kind (Server.determineSecurityResponse now m) = StepUpChallenge)) /\
    ((Server.riskScore m =? Server.HIGH) = true ->
     Server.kind (Server.determineSecurityResponse now m) = SessionTerminate /\
     Server.highRiskSessions
       (Server.aggregateStatistics [Server.anonymizedRow env m iso]) = 0%nat /\
     Server.mediumRiskSessions
       (Server.aggregateStatistics [Server.anonymizedRow env m iso]) = 1%nat) /\
    ((Server.riskScore m =? Server.MEDIUM) = true ->
     Server.kind (Server.determineSecurityResponse now m) = StepUpChallenge /\
     Server.highRiskSessions
       (Server.aggregateStatistics [Server.anonymizedRow env m iso]) = 0%nat /\
     Server.mediumRiskSessions
       (Server.aggregateStatistics [Server.anonymizedRow env m iso]) = 0%nat).
Proof.
  intros now env m iso.
  unfold Server.aggregateStatistics.
  cbn [Server.highRiskSessions Server.mediumRiskSessions filter
       Server.anonymizedRow Server.risk_score].
  split; [| split].
  - intros E6 E8.
    rewrite (ServerFacts.terminal_iff_high now m), (ScoreFacts.step_up_iff now m).
    destruct (ScoreFacts.geb_gtb_eqb (Server.riskScore m)) as (G6 & G8 & L8).
    rewrite G6, G8, L8, E6, E8, !orb_false_r.
    destruct (Server.gtb (Server.riskScore m) Server.HIGH),
      (Server.gtb (Server.riskScore m) Server.MEDIUM),
      (Server.riskScore m <? Server.HIGH);
      cbn [andb List.length]; split; split; intros; try discriminate;
      try reflexivity; try tauto; intuition discriminate.
  - intros E. apply (ScoreFacts.eqb_exact _ _ _ _ ServerFacts.HIGH_repr) in E.
    unfold Server.determineSecurityResponse, Server.gtb.
    rewrite !ServerFacts.ltb_SF, !ServerFacts.geb_SF, !ScoreFacts.leb_SF.
    ServerFacts.to_repr. rewrite E. repeat split.
  - intros E. apply (ScoreFacts.eqb_exact _ _ _ _ ServerFacts.MEDIUM_repr) in E.
    unfold Server.determineSecurityResponse, Server.gtb.
    rewrite !ServerFacts.ltb_SF, !ServerFacts.geb_SF, !ScoreFacts.leb_SF.
    ServerFacts.to_repr. rewrite E. repeat split.
Qed.

(** X13, at exactly 0.8. *)
Lemma counted_class_against_response_witness :
  Server.kind (Server.determineSecurityResponse 0 (Inputs.scored 0.8 [])) = SessionTerminate /\
  Server.highRiskSessions
    (Server.aggregateStatistics
       [Server.anonymizedRow Inputs.calm (Inputs.scored 0.8 []) ""]) = 0%nat /\
  Server.mediumRiskSessions
    (Server.aggregateStatistics
       [Server.anonymizedRow Inputs.calm (Inputs.scored 0.8 []) ""]) = 1%nat.
Proof.
  exact (proj1 (proj2 (counted_class_against_response
                         0 Inputs.calm (Inputs.scored 0.8 []) "")) eq_refl).
Defined.

(** X14.  The anomaly tally of [aggregateStatistics] holds, under a flag,
    the number of times the flag occurs in the rows, and nothing under a
    flag that never occurs; unless the flag is the name of a member every
    object inherits (toString, constructor, ...): under such a name the
    tally never holds a number. *)
Theorem anomaly_tally_counts_occurrences :
  forall (data : list Server.AnalyticsRow) (flag : string),
    (Server.inherited flag = false ->
     Server.tallyOf (Server.anomalyTypeCounts (Server.aggregateStatistics data)) flag
     = match count_occ string_dec (List.concat (map Server.anomaly_flags data)) flag with
       | O => None
       | S n => Some (Server.Count (S n))
       end) /\
    (Server.inherited flag = true ->
     forall n,
       Server.tallyOf (Server.anomalyTypeCounts (Server.aggregateStatistics data)) flag
       <> Some (Server.Count n)).
Proof.
  intros data flag.
  unfold Server.aggregateStatistics. cbn [Server.anomalyTypeCounts].
  rewrite StatisticsFacts.tally_rows, StatisticsFacts.tallyOf_fold.
  cbn [Server.tallyOf]. unfold Server.after.
  destruct (count_occ string_dec (List.concat (map Server.anomaly_flags data)) flag);
    split; intros H; rewrite ?H; try reflexivity; intros k; try discriminate.
  destruct (String.eqb flag "__proto__"); discriminate.
Qed.

(** X14, on two rows that share a flag, and on a flag named toString. *)
Lemma anomaly_tally_counts_occurrences_witness :
  Server.tallyOf
    (Server.anomalyTypeCounts
       (Server.aggregateStatistics
          [Server.anonymizedRow Inputs.calm (Inputs.scored 0.7 ["typing_anomaly"]) "";
           Server.anonymizedRow Inputs.calm
             (Inputs.scored 0.9 ["device_anomaly"; "typing_anomaly"]) ""]))
    "typing_anomaly" = Some (Server.Count 2) /\
  Server.tallyOf
    (Server.anomalyTypeCounts
       (Server.aggregateStatistics
          [Server.anonymizedRow Inputs.calm (Inputs.scored 0.7 ["toString"]) ""]))
    "toString" <> Some (Server.Count 1).
Proof.
  split.
  - exact (proj1 (anomaly_tally_counts_occurrences
                    [Server.anonymizedRow Inputs.calm (Inputs.scored 0.7 ["typing_anomaly"]) "";
                     Server.anonymizedRow Inputs.calm
                       (Inputs.scored 0.9 ["device_anomaly"; "typing_anomaly"]) ""]
                    "typing_anomaly") eq_refl).
  - exact (proj2 (anomaly_tally_counts_occurrences
                    [Server.anonymizedRow Inputs.calm (Inputs.scored 0.7 ["toString"]) ""]
                    "toString") eq_refl 1%nat).
Defined.

End ServerBeyond.


(** ** The collector: what the purge keeps, and where buffered events come from *)

Module ProvenanceFacts.

Import Collector.

Section Buffers.

Context {F : Type} {ops : FloatOps F}.

(** With the clock in range the cutoff is ten seconds before it. *)
Lemma cutoff_exact now :
  - 2 ^ 63 + 10000 <= now < 2 ^ 63 ->
  wrapLong (now - wrapLong (COLLECTION_INTERVAL_MS * 2)) = now - 10000.
Proof.
  intros H. unfold COLLECTION_INTERVAL_MS.
  rewrite (CollectorFacts.wrapLong_small (5000 * 2))
    by (CollectorFacts.long_bounds; lia).
  apply CollectorFacts.wrapLong_small. CollectorFacts.long_bounds. lia.
Qed.

(** The body of a tick adds nothing to the buffers. *)
Lemma tick_body_buffers env (c : Collector F) :
  let c' := snd (processCollectedData env c) in
  (forall e, In e (touchEvents c') -> In e (touchEvents c)) /\
  (forall e, In e (typingEvents c') -> In e (typingEvents c)) /\
  (forall e, In e (navigationEvents c') -> In e (navigationEvents c)).
Proof.
  cbv zeta.
  destruct (CollectorFacts.processCollectedData_cases env c) as [(m & E) | (err & E)];
    rewrite E; cbn [snd].
  - unfold clearOldData, withBuffers.
    cbn [touchEvents typingEvents navigationEvents].
    repeat split; intros e He; apply filter_In in He; exact (proj1 He).
  - repeat split; auto.
Qed.

(** Whatever a call does, a consent-guarded buffer it leaves holds events
    that were there before, and at most one new event: the one of the call,
    when it is an ingestion made with consent. *)
Lemma serve_touch (c : Collector F) call e :
  In e (touchEvents (serve c call)) ->
  In e (touchEvents c) \/
  exists env event,
    call = OnTouchEvent env event /\ hasUserConsent env = true /\
    e = {| touch_timestamp := currentTimeMillis env;
           x := event_x event; y := event_y event;
           touch_pressure := event_pressure event; size := event_size event;
           touch_duration := wrapLong (eventTime event - downTime event);
           touch_action := event_action event |}.
Proof.
  destruct call as [cb | env uuid | env | env | env event | env k d f p | env s a d
                    | env event | ]; cbn [serve].
  - intros H; left; exact H.
  - unfold startCollection.
    destruct (isCollecting c); [intros H; left; exact H|].
    destruct (negb (hasUserConsent env)); cbn; intros H; [left; exact H | contradiction].
  - unfold stopCollection.
    destruct (negb (isCollecting c)); cbn; intros H; [left; exact H | contradiction].
  - unfold tick. destruct (isCollecting c); [| intros H; left; exact H].
    intros H. left. now apply (tick_body_buffers env c).
  - unfold onTouchEvent.
    destruct (isCollecting c); cbn [negb orb]; [| intros H; left; exact H].
    destruct (hasUserConsent env) eqn:Hc; cbn [negb]; [| intros H; left; exact H].
    destruct (List.length (touchEvents c) <? MAX_TOUCH_EVENTS)%nat.
    + cbn. intros H. apply in_app_or in H. destruct H as [H | [<- | []]];
        [left; exact H | right; eauto].
    + destruct (touchEvents c) as [| old rest] eqn:Et; cbn; [rewrite Et; intros []|].
      intros H. apply in_app_or in H. destruct H as [H | [<- | []]];
        [left; right; exact H | right; eauto].
  - unfold onTypingEvent.
    destruct (negb (isCollecting c) || negb (hasUserConsent env));
      [intros H; left; exact H|].
    destruct (List.length (typingEvents c) <? MAX_TYPING_EVENTS)%nat;
      [intros H; left; exact H|].
    destruct (removeAt0 (typingEvents c)); intros H; left; exact H.
  - unfold onNavigationEvent.
    destruct (negb (isCollecting c) || negb (hasUserConsent env));
      intros H; left; exact H.
  - unfold onSensorChanged.
    destruct event as [event|]; [| intros H; left; exact H].
    destruct (negb (isCollecting c)); [intros H; left; exact H|].
    match goal with
    | |- context [(MAX_SENSOR_DATA <? List.length ?added)%nat] =>
        destruct (MAX_SENSOR_DATA <? List.length added)%nat;
        [ destruct (removeAt0 added) | ]
    end; intros H; left; exact H.
  - cbn. intros [].
Qed.

Lemma serve_typing (c : Collector F) call e :
  In e (typingEvents (serve c call)) ->
  In e (typingEvents c) \/
  exists env k d f p,
    call = OnTypingEvent env k d f p /\ hasUserConsent env = true /\
    e = {| typing_timestamp := currentTimeMillis env;
           keyCode := k; dwellTime := d; flightTime := f;
           typing_pressure := p |}.
Proof.
  destruct call as [cb | env uuid | env | env | env event | env k d f p | env s a d
                    | env event | ]; cbn [serve].
  - intros H; left; exact H.
  - unfold startCollection.
    destruct (isCollecting c); [intros H; left; exact H|].
    destruct (negb (hasUserConsent env)); cbn; intros H; [left; exact H | contradiction].
  - unfold stopCollection.
    destruct (negb (isCollecting c)); cbn; intros H; [left; exact H | contradiction].
  - unfold tick. destruct (isCollecting c); [| intros H; left; exact H].
    intros H. left. now apply (tick_body_buffers env c).
  - unfold onTouchEvent.
    destruct (negb (isCollecting c) || negb (hasUserConsent env));
      [intros H; left; exact H|].
    destruct (List.length (touchEvents c) <? MAX_TOUCH_EVENTS)%nat;
      [intros H; left; exact H|].
    destruct (removeAt0 (touchEvents c)); intros H; left; exact H.
  - unfold onTypingEvent.
    destruct (isCollecting c); cbn [negb orb]; [| intros H; left; exact H].
    destruct (hasUserConsent env) eqn:Hc; cbn [negb]; [| intros H; left; exact H].
    destruct (List.length (typingEvents c) <? MAX_TYPING_EVENTS)%nat.
    + cbn. intros H. apply in_app_or in H. destruct H as [H | [<- | []]];
        [left; exact H | right; repeat eexists; eauto].
    + destruct (typingEvents c) as [| old rest] eqn:Et; cbn; [rewrite Et; intros []|].
      intros H. apply in_app_or in H. destruct H as [H | [<- | []]];
        [left; right; exact H | right; repeat eexists; eauto].
  - unfold onNavigationEvent.
    destruct (negb (isCollecting c) || negb (hasUserConsent env));
      intros H; left; exact H.
  - unfold onSensorChanged.
    destruct event as [event|]; [| intros H; left; exact H].
    destruct (negb (isCollecting c)); [intros H; left; exact H|].
    match goal with
    | |- context [(MAX_SENSOR_DATA <? List.length ?added)%nat] =>
        destruct (MAX_SENSOR_DATA <? List.length added)%nat;
        [ destruct (removeAt0 added) | ]
    end; intros H; left; exact H.
  - cbn. intros [].
Qed.

Lemma serve_navigation (c : Collector F) call e :
  In e (navigationEvents (serve c call)) ->
  In e (navigationEvents c) \/
  exists env s a d,
    call = OnNavigationEvent env s a d /\ hasUserConsent env = true /\
    e = {| nav_timestamp := currentTimeMillis env;
           screenName := s; nav_action := a; nav_duration := d |}.
Proof.
  destruct call as [cb | env uuid | env | env | env event | env k d f p | env s a d
                    | env event | ]; cbn [serve].
  - intros H; left; exact H.
  - unfold startCollection.
    destruct (isCollecting c); [intros H; left; exact H|].
    destruct (negb (hasUserConsent env)); cbn; intros H; [left; exact H | contradiction].
  - unfold stopCollection.
    destruct (negb (isCollecting c)); cbn; intros H; [left; exact H | contradiction].
  - unfold tick. destruct (isCollecting c); [| intros H; left; exact H].
    intros H. left. now apply (tick_body_buffers env c).
  - unfold onTouchEvent.
    destruct (negb (isCollecting c) || negb (hasUserConsent env));
      [intros H; left; exact H|].
    destruct (List.length (touchEvents c) <? MAX_TOUCH_EVENTS)%nat;
      [intros H; left; exact H|].
    destruct (removeAt0 (touchEvents c)); intros H; left; exact H.
  - unfold onTypingEvent.
    destruct (negb (isCollecting c) || negb (hasUserConsent env));
      [intros H; left; exact H|].
    destruct (List.length (typingEvents c) <? MAX_TYPING_EVENTS)%nat;
      [intros H; left; exact H|].
    destruct (removeAt0 (typingEvents c)); intros H; left; exact H.
  - unfold onNavigationEvent.
    destruct (isCollecting c); cbn [negb orb]; [| intros H; left; exact H].
    destruct (hasUserConsent env) eqn:Hc; cbn [negb]; [| intros H; left; exact H].
    cbn. intros H. apply in_app_or in H. destruct H as [H | [<- | []]];
      [left; exact H | right; repeat eexists; eauto].
  - unfold onSensorChanged.
    destruct event as [event|]; [| intros H; left; exact H].
    destruct (negb (isCollecting c)); [intros H; left; exact H|].
    match goal with
    | |- context [(MAX_SENSOR_DATA <? List.length ?added)%nat] =>
        destruct (MAX_SENSOR_DATA <? List.length added)%nat;
        [ destruct (removeAt0 added) | ]
    end; intros H; left; exact H.
  - cbn. intros [].
Qed.

End Buffers.

End ProvenanceFacts.

Section CollectorBeyond.

Import Collector.

(** X15.  Every touch, typing and navigation event a collector holds,
    whatever calls it has served since its creation, was recorded by an
    ingestion call made while the privacy manager reported consent, and it
    carries that call's clock reading and data.  (The sensor buffer is not
    among them: its callback does not read the consent.) *)
Theorem buffered_events_were_consented :
  forall (F : Type) (ops : FloatOps F) (calls : list (Call F)) (uuid : string),
    (forall e, In e (touchEvents (run calls (newCollector uuid))) ->
       exists env event,
         In (OnTouchEvent env event) calls /\ hasUserConsent env = true /\
         e = {| touch_timestamp := currentTimeMillis env;
                x := event_x event; y := event_y event;
                touch_pressure := event_pressure event; size := event_size event;
                touch_duration := wrapLong (eventTime event - downTime event);
                touch_action := event_action event |}) /\
    (forall e, In e (typingEvents (run calls (newCollector uuid))) ->
       exists env k d f p,
         In (OnTypingEvent env k d f p) calls /\ hasUserConsent env = true /\
         e = {| typing_timestamp := currentTimeMillis env;
                keyCode := k; dwellTime := d; flightTime := f;
                typing_pressure := p |}) /\
    (forall e, In e (navigationEvents (run calls (newCollector uuid))) ->
       exists env s a d,
         In (OnNavigationEvent env s a d) calls /\ hasUserConsent env = true /\
         e = {| nav_timestamp := currentTimeMillis env;
                screenName := s; nav_action := a; nav_duration := d |}).
Proof.
  intros F ops calls uuid.
  assert (G :
    forall (c : Collector F),
      (forall e, In e (touchEvents (run calls c)) ->
         In e (touchEvents c) \/
         exists env event,
           In (OnTouchEvent env event) calls /\ hasUserConsent env = true /\
           e = {| touch_timestamp := currentTimeMillis env;
                  x := event_x event; y := event_y event;
                  touch_pressure := event_pressure event; size := event_size event;
                  touch_duration := wrapLong (eventTime event - downTime event);
                  touch_action := event_action event |}) /\
      (forall e, In e (typingEvents (run calls c)) ->
         In e (typingEvents c) \/
         exists env k d f p,
           In (OnTypingEvent env k d f p) calls /\ hasUserConsent env = true /\
           e = {| typing_timestamp := currentTimeMillis env;
                  keyCode := k; dwellTime := d; flightTime := f;
                  typing_pressure := p |}) /\
      (forall e, In e (navigationEvents (run calls c)) ->
         In e (navigationEvents c) \/
         exists env s a d,
           In (OnNavigationEvent env s a d) calls /\ hasUserConsent env = true /\
           e = {| nav_timestamp := currentTimeMillis env;
                  screenName := s; nav_action := a; nav_duration := d |})).
  { induction calls as [| call rest IH]; intros c.
    - repeat split; intros e H; left; exact H.
    - change (run (call :: rest) c) with (run rest (serve c call)).
      destruct (IH (serve c call)) as (It & Ik & In').
      repeat split; intros e H.
      + destruct (It e H) as [H1 | (env & event & Hin & Hc & ->)].
        * destruct (ProvenanceFacts.serve_touch c call e H1)
            as [H2 | (env & event & -> & Hc & ->)];
            [left; exact H2 | right; exists env, event; repeat split; auto; now left].
        * right. exists env, event. repeat split; auto. now right.
      + destruct (Ik e H) as [H1 | (env & k & d & f & p & Hin & Hc & ->)].
        * destruct (ProvenanceFacts.serve_typing c call e H1)
            as [H2 | (env & k & d & f & p & -> & Hc & ->)];
            [left; exact H2
            | right; exists env, k, d, f, p; repeat split; auto; now left].
        * right. exists env, k, d, f, p. repeat split; auto. now right.
      + destruct (In' e H) as [H1 | (env & s & a & d & Hin & Hc & ->)].
        * destruct (ProvenanceFacts.serve_navigation c call e H1)
            as [H2 | (env & s & a & d & -> & Hc & ->)];
            [left; exact H2
            | right; exists env, s, a, d; repeat split; auto; now left].
        * right. exists env, s, a, d. repeat split; auto. now right. }
  destruct (G (newCollector uuid)) as (Gt & Gk & Gn).
  repeat split; intros e H;
    [destruct (Gt e H) as [[] | ?] | destruct (Gk e H) as [[] | ?]
     | destruct (Gn e H) as [[] | ?]]; assumption.
Qed.

(** X16.  With the clock in the range of a [Long] that leaves room for
    the subtraction, the purge removes from each buffer exactly the events
    stamped more than ten seconds before the clock reading: what it keeps
    is the events at or after that instant, in their order; the flag, the
    session and the callback are untouched. *)
Theorem purge_removes_exactly_the_old_events :
  forall (F : Type) (ops : FloatOps F) (now : Z) (c : Collector F),
    - 2 ^ 63 + 10000 <= now < 2 ^ 63 ->
    touchEvents (clearOldData now c)
    = filter (fun e => now - 10000 <=? touch_timestamp e) (touchEvents c) /\
    typingEvents (clearOldData now c)
    = filter (fun e => now - 10000 <=? typing_timestamp e) (typingEvents c) /\
    sensorData (clearOldData now c)
    = filter (fun e => now - 10000 <=? sensor_timestamp e) (sensorData c) /\
    navigationEvents (clearOldData now c)
    = filter (fun e => now - 10000 <=? nav_timestamp e) (navigationEvents c) /\
    isCollecting (clearOldData now c) = isCollecting c /\
    sessionId (clearOldData now c) = sessionId c /\
    dataCallback (clearOldData now c) = dataCallback c.
Proof.
  intros F ops now c H.
  unfold clearOldData. rewrite (ProvenanceFacts.cutoff_exact now H).
  cbn [withBuffers touchEvents typingEvents sensorData navigationEvents
       isCollecting sessionId dataCallback].
  repeat split; apply filter_ext; intros e; symmetry; apply Z.leb_antisym.
Qed.

(** X16, at one minute, on the session holding readings taken at 1000 and
    at 55000. *)
Lemma purge_removes_exactly_the_old_events_witness :
  map sensor_timestamp
    (sensorData (clearOldData 60000 Inputs.staleWithSoundCallback)) = [55000].
Proof.
  destruct (purge_removes_exactly_the_old_events
              spec_float Inputs.arithmetic 60000 Inputs.staleWithSoundCallback)
    as (_ & _ & Hs & _).
  - split; [discriminate | reflexivity].
  - rewrite Hs. reflexivity.
Defined.

End CollectorBeyond.

(** ** The activity *)

Module ActivityFacts.

Import Activity.

Section Switch.

Context {ops : Collector.FloatOps spec_float} {Metrics : Type}.

(** A stopped collector is not collecting. *)
Lemma stopCollection_flag env (c : Collector.Collector spec_float) :
  Collector.isCollecting (Collector.stopCollection env c) = false.
Proof.
  unfold Collector.stopCollection.
  destruct (Collector.isCollecting c) eqn:E; cbn [negb]; [| exact E].
  destruct (CollectorFacts.processCollectedData_cases
              env (Collector.withCollecting c false)) as [(m & R) | (err & R)];
    rewrite R; reflexivity.
Qed.

(** Every event keeps the activity's switch and the collector's flag
    equal. *)
Lemma handle_agrees (a : Activity) (e : @Event Metrics) :
  isCollectingBiometrics a = Collector.isCollecting (biometricsCollector a) ->
  isCollectingBiometrics (handle a e)
  = Collector.isCollecting (biometricsCollector (handle a e)).
Proof.
  intros H. destruct e as [consent env uuid last | predict exec metrics | kind];
    cbn [handle].
  - unfold toggleBiometricCollection.
    destruct (isCollectingBiometrics a) eqn:Ea.
    + unfold stopBiometricCollection.
      cbn [isCollectingBiometrics biometricsCollector].
      symmetry. apply stopCollection_flag.
    + unfold startBiometricCollection, Collector.startCollection.
      destruct consent; cbn [negb]; [| now rewrite Ea].
      rewrite <- H.
      destruct (Collector.hasUserConsent env); cbn [negb];
        cbn [isCollectingBiometrics biometricsCollector]; [reflexivity|].
      now rewrite Ea.
  - unfold processBehavioralMetrics.
    destruct (predict metrics) as [score|]; [| exact H].
    destruct (Android.determineSecurityResponse score metrics) as [r|]; [| exact H].
    destruct (exec r); exact H.
  - unfold handleBiometricAuthentication.
    destruct (kind =? AUTHENTICATION_RESULT_TYPE_BIOMETRIC)%Z; exact H.
Qed.

End Switch.

End ActivityFacts.

Section ActivityBeyond.

Import Activity.

(** X17.  Whatever the user toggles, the model scores and the prompt
    answers, in whatever order, the activity's switch and the collector's
    own flag agree: the screen never shows monitoring while the collector is
    idle, nor the reverse.  Each handler runs to its end before the next
    event, and the platform's own calls (sensor registration, accessibility
    announcements) return; the one exception the collector raises, for a
    missing consent, is covered. *)
Theorem switch_agrees_with_collector :
  forall (ops : Collector.FloatOps spec_float) (Metrics : Type)
         (events : list (@Event Metrics)) (uuid : string),
    isCollectingBiometrics (fold_left handle events (initialized uuid))
    = Collector.isCollecting
        (biometricsCollector (fold_left handle events (initialized uuid))).
Proof.
  intros ops Metrics events uuid.
  assert (G : forall a : Activity,
             isCollectingBiometrics a = Collector.isCollecting (biometricsCollector a) ->
             isCollectingBiometrics (fold_left handle events a)
             = Collector.isCollecting (biometricsCollector (fold_left handle events a))).
  { induction events as [| e rest IH]; intros a H; [exact H|].
    cbn [fold_left]. apply IH, ActivityFacts.handle_agrees, H. }
  apply G. reflexivity.
Qed.

(** X18.  What one scored tick does to the screen.  The score shown is the
    model's, whether or not a response follows.  Below 0.3, or when the
    score is not a number, there is no response and the status stays what it
    was: a calm tick does not clear an earlier alert.  From 0.3 upwards the
    status is the text of the tier, provided the security handler returned;
    when the handler throws the status stays what it was.  When the model
    throws nothing changes. *)
Theorem status_after_a_scored_tick :
  forall (Metrics : Type) (predict : Metrics -> Outcome spec_float)
         (executeResponse : Android.SecurityResponse -> Outcome unit)
         (metrics : Metrics) (a : Activity),
    match predict metrics with
    | Threw _ => processBehavioralMetrics predict executeResponse metrics a = a
    | Returned score =>
        let a' := processBehavioralMetrics predict executeResponse metrics a in
        currentRiskScore a' = score /\
        isCollectingBiometrics a' = isCollectingBiometrics a /\
        biometricsCollector a' = biometricsCollector a /\
        (Android.geb score (Android.lit 3 10) = false ->
         securityStatus a' = securityStatus a) /\
        (Android.geb score (Android.lit 3 10) = true ->
         (forall response, returned (executeResponse response) = true) ->
         securityStatus a'
         = if Android.geb score (Android.lit 95 100) then "Critical Alert"
           else if Android.geb score (Android.lit 8 10) then "High Risk"
           else if Android.geb score (Android.lit 6 10) then "Medium Risk"
           else "Low Risk"
        )%string /\
        ((forall response, returned (executeResponse response) = false) ->
         securityStatus a' = securityStatus a)
    end.
Proof.
  intros Metrics predict exec metrics a.
  unfold processBehavioralMetrics.
  destruct (predict metrics) as [score | err]; [| reflexivity].
  cbv zeta. unfold Android.determineSecurityResponse.
  destruct (Android.geb score (Android.lit 95 100)) eqn:E95;
    [| destruct (Android.geb score (Android.lit 8 10)) eqn:E8;
       [| destruct (Android.geb score (Android.lit 6 10)) eqn:E6;
          [| destruct (Android.geb score (Android.lit 3 10)) eqn:E3]]];
    try match goal with
        | |- context [exec ?r] =>
            pose proof (fun H : forall x, returned (exec x) = true => H r) as Hok;
            pose proof (fun H : forall x, returned (exec x) = false => H r) as Hko;
            destruct (exec r) as [[]|]; cbn [returned] in Hok, Hko
        end;
    cbn [updateSecurityStatus withStatus withRiskScore currentRiskScore
         securityStatus isCollectingBiometrics biometricsCollector
         Android.severity];
    repeat split; try reflexivity; try discriminate;
    try (intros; exfalso; AndroidFacts.to_repr;
         IEEEFacts.thr_solve score; fail);
    try (intros ? Hall; specialize (Hok Hall); discriminate);
    try (intros Hall; specialize (Hko Hall); discriminate).
Qed.

(** X18, on a screen showing High Risk that receives the score 0.1. *)
Lemma status_after_a_scored_tick_witness :
  securityStatus
    (processBehavioralMetrics (fun _ : unit => Returned (Android.lit 1 10))
       (fun _ => Returned tt) tt (withStatus (initialized "3f2c9a52") "High Risk"))
  = "High Risk"%string /\
  currentRiskScore
    (processBehavioralMetrics (fun _ : unit => Returned (Android.lit 1 10))
       (fun _ => Returned tt) tt (withStatus (initialized "3f2c9a52") "High Risk"))
  = Android.lit 1 10.
Proof.
  destruct (status_after_a_scored_tick unit
              (fun _ => Returned (Android.lit 1 10)) (fun _ => Returned tt) tt
              (withStatus (initialized "3f2c9a52") "High Risk"))
    as (Hscore & _ & _ & Hcalm & _).
  split; [apply Hcalm; reflexivity | exact Hscore].
Defined.

End ActivityBeyond.
